(** * reqlogd: a shallow embedding of the request logger and its startup

    The Go program [reqlogd.go] resolves its store configuration from the
    process environment ([dbConfFromEnv], [tlsConfig]), opens the store
    ([newDB]) and then serves one catch-all handler ([serveReqLog]) that
    turns every inbound request into one insert.

    The data and the pure functions of each Go package the program calls
    into are in a module named after the package; the calls that touch
    the process or the request carry the package name as a prefix
    ([os_LookupEnv], [ioutil_ReadFile], [log_Fatal]).  Both follow the
    documented contract of the package.  What the program itself does is
    transcribed statement by statement.  Effects are explicit: a function
    of the program that touches the outside world is a computation in a
    state monad whose state carries a chronological trace of the calls
    made.

    The file has two parts: the embedding (definitions only), then the
    properties. *)

From Stdlib Require Import ZArith Ascii.
From stdpp Require Import base gmap strings list sorting.

Local Open Scope Z_scope.

(** ** Go's [error] values and [(T, error)] results *)

(** An [error] is identified with the message its [Error()] method returns. *)
Record error := errors_New { Error : string }.

Global Instance error_eq_dec : EqDecision error.
Proof. solve_decision. Defined.

(** A Go result pair [(v, err)] in which exactly one side is meaningful. *)
Inductive result (A : Type) :=
| Ok (v : A)
| Err (e : error).
Arguments Ok {A} v.
Arguments Err {A} e.

(** ** State monad with explicit state passing *)

Definition M (S A : Type) : Type := S -> A * S.

Definition ret {S A} (a : A) : M S A := fun s => (a, s).

Definition bind {S A B} (m : M S A) (k : A -> M S B) : M S B :=
  fun s => let (a, s') := m s in k a s'.

Declare Scope go_scope.
Delimit Scope go_scope with go.
Notation "x <- m ;; k" := (bind m (fun x => k))
  (at level 100, m at next level, right associativity) : go_scope.
Notation "m ;;; k" := (bind m (fun _ => k))
  (at level 100, right associativity) : go_scope.

(** [strings.Join]. *)
Fixpoint strings_Join (sep : string) (l : list string) : string :=
  match l with
  | [] => ""
  | [x] => x
  | x :: l' => x +:+ sep +:+ strings_Join sep l'
  end.

(** ** Package [time] *)

Module time.

Inductive Location :=
| UTC
| Zone (name : string) (offset : Z).

(** An instant with the location it is presented in. *)
Record Time := { unixNano : Z; location : Location }.

(** The method [UTC] of [Time]: same instant, location set to UTC. *)
Definition Time_UTC (t : Time) : Time :=
  {| unixNano := unixNano t; location := UTC |}.

End time.

(** ** Package [crypto/tls] *)

Module tls.

(** [tls.Certificate]: a certificate chain with its private key. *)
Record Certificate := { Chain : list string; PrivateKey : string }.

(** [tls.Config], restricted to the two fields the program sets. *)
Record Config := { RootCAs : list string; Certificates : list Certificate }.

(** [tls.ConnectionState], present on a request that came in over TLS. *)
Record ConnectionState := { Version : Z; ServerName : string }.

(** The parsing the crypto packages do on file contents. *)
Class Parsing := {
  (* the certificates [AppendCertsFromPEM] finds in a PEM bundle *)
  parseCertsPEM : string -> list string;
  (* [tls.X509KeyPair] on the PEM contents of the two files *)
  X509KeyPair : string -> string -> result Certificate
}.

End tls.

(** ** Package [mysql] (the driver): configuration *)

Module mysql.

(** [mysql.Config], restricted to the fields the program sets.
    [TLSConfig] names a registered TLS profile; when it is empty the
    connection is opened without TLS. *)
Record Config := {
  User : string;
  Passwd : string;
  Net : string;
  Addr : string;
  DBName : string;
  Loc : time.Location;
  ParseTime : bool;
  TLSConfig : string
}.

Definition set_User (v : string) (c : Config) : Config :=
  {| User := v; Passwd := Passwd c; Net := Net c; Addr := Addr c;
     DBName := DBName c; Loc := Loc c; ParseTime := ParseTime c;
     TLSConfig := TLSConfig c |}.
Definition set_Passwd (v : string) (c : Config) : Config :=
  {| User := User c; Passwd := v; Net := Net c; Addr := Addr c;
     DBName := DBName c; Loc := Loc c; ParseTime := ParseTime c;
     TLSConfig := TLSConfig c |}.
Definition set_Addr (v : string) (c : Config) : Config :=
  {| User := User c; Passwd := Passwd c; Net := Net c; Addr := v;
     DBName := DBName c; Loc := Loc c; ParseTime := ParseTime c;
     TLSConfig := TLSConfig c |}.
Definition set_DBName (v : string) (c : Config) : Config :=
  {| User := User c; Passwd := Passwd c; Net := Net c; Addr := Addr c;
     DBName := v; Loc := Loc c; ParseTime := ParseTime c;
     TLSConfig := TLSConfig c |}.
Definition set_TLSConfig (v : string) (c : Config) : Config :=
  {| User := User c; Passwd := Passwd c; Net := Net c; Addr := Addr c;
     DBName := DBName c; Loc := Loc c; ParseTime := ParseTime c;
     TLSConfig := v |}.

(** ASCII lower-casing, as [strings.ToLower] does on ASCII input. *)
Definition lower (c : Ascii.ascii) : Ascii.ascii :=
  let n := Ascii.nat_of_ascii c in
  if (65 <=? n)%nat && (n <=? 90)%nat
  then Ascii.ascii_of_nat (n + 32) else c.

Fixpoint ToLower (s : string) : string :=
  match s with
  | EmptyString => EmptyString
  | String c s' => String (lower c) (ToLower s')
  end.

(** The keys the driver reserves: the spellings its [readBool] accepts,
    and the two built-in profile names compared case-insensitively. *)
Definition reservedKey (key : string) : bool :=
  bool_decide (key ∈ ["1"; "true"; "TRUE"; "True";
                      "0"; "false"; "FALSE"; "False"])
  || bool_decide (ToLower key = "skip-verify")
  || bool_decide (ToLower key = "preferred").

(** What [database/sql] does with a DSN of this driver. *)
Class Driver := {
  FormatDSN : Config -> string;
  (* whether [sql.Open] rejects the driver name or the DSN *)
  Open : string -> string -> option error;
  (* the round trip [Ping] makes to the store behind the DSN *)
  Ping : string -> option error
}.

End mysql.

(** ** The process as seen by the startup path *)

(** Calls that leave the program during startup, in the order made. *)
Inductive SysCall :=
| SysLookupEnv (name : string)
| SysReadFile (path : string)
| SysRegisterTLS (key : string)
| SysOpen (driver dsn : string)
| SysPing
| SysLog (line : string)
| SysHandleFunc (pattern : string)
| SysListen (addr : string)
| SysExit (code : Z).

Record Sys := {
  sys_env : gmap string string;        (* the process environment *)
  sys_files : gmap string string;      (* readable files, by path *)
  sys_tls : gmap string tls.Config;    (* the driver's TLS registry *)
  sys_trace : list SysCall
}.

(** The state after the calls [cs] have been made, nothing else changed. *)
Definition sys_calls (cs : list SysCall) (s : Sys) : Sys :=
  {| sys_env := sys_env s; sys_files := sys_files s; sys_tls := sys_tls s;
     sys_trace := sys_trace s ++ cs |}.

Definition sys_emit (c : SysCall) : M Sys unit :=
  fun s => (tt, sys_calls [c] s).

(** [os.LookupEnv]: the value and whether the variable is present. *)
Definition os_LookupEnv (name : string) : M Sys (option string) :=
  (sys_emit (SysLookupEnv name) ;;;
   fun s => (sys_env s !! name, s))%go.

(** [ioutil.ReadFile]. *)
Definition ioutil_ReadFile (path : string) : M Sys (result string) :=
  (sys_emit (SysReadFile path) ;;;
   fun s => (match sys_files s !! path with
             | Some data => Ok data
             | None => Err (errors_New
                         ("open " +:+ path +:+ ": no such file or directory"))
             end, s))%go.

(** [tls.LoadX509KeyPair]: read both files, then pair them. *)
Definition tls_LoadX509KeyPair `{tls.Parsing} (certFile keyFile : string)
  : M Sys (result tls.Certificate) :=
  (c <- ioutil_ReadFile certFile ;;
   match c with
   | Err e => ret (Err e)
   | Ok certPEM =>
       k <- ioutil_ReadFile keyFile ;;
       match k with
       | Err e => ret (Err e)
       | Ok keyPEM => ret (tls.X509KeyPair certPEM keyPEM)
       end
   end)%go.

(** [mysql.RegisterTLSConfig]. *)
Definition mysql_RegisterTLSConfig (key : string) (config : tls.Config)
  : M Sys (option error) :=
  if mysql.reservedKey key
  then ret (Some (errors_New ("key '" +:+ key +:+ "' is reserved")))
  else (sys_emit (SysRegisterTLS key) ;;;
        fun s => (None, {| sys_env := sys_env s; sys_files := sys_files s;
                           sys_tls := <[key := config]> (sys_tls s);
                           sys_trace := sys_trace s |}))%go.

(** [log.Println], [log.Printf]: the formatted message is recorded, the
    prefix and the time stamp the logger adds are left out. *)
Definition sys_log (line : string) : M Sys unit := sys_emit (SysLog line).

(** The ways [main] can end. *)
Inductive Exit :=
| Exited (code : Z)
| Serving (addr : string).

(** [log.Fatal]: print, then [os.Exit(1)]. *)
Definition log_Fatal (e : error) : M Sys Exit :=
  (sys_log (Error e) ;;; sys_emit (SysExit 1) ;;; ret (Exited 1))%go.

(** ** reqlogd.go: startup *)

Definition errCertPath : error :=
  errors_New "DB_CA_CERT_PATH is required and was not set".
Definition errClientCertPath : error :=
  errors_New "DB_CLIENT_CERT_PATH is required and was not set".
Definition errClientKeyPath : error :=
  errors_New "DB_CLIENT_KEY_PATH is required and was not set".
Definition errCertPEM : error :=
  errors_New "trusted conn with DB not established, cannot parse cert PEM".

Section Startup.

Context `{tls.Parsing} `{mysql.Driver}.

(** [tlsConfig]. *)
Definition tlsConfig (caCertPath clientCertPath clientKeyPath : string)
  : M Sys (result string) :=
  (pem <- ioutil_ReadFile caCertPath ;;
   match pem with
   | Err err => ret (Err err)
   | Ok pem =>
       let rootCertPool := tls.parseCertsPEM pem in
       if bool_decide (rootCertPool = [])
       then ret (Err errCertPEM)
       else
         cert <- tls_LoadX509KeyPair clientCertPath clientKeyPath ;;
         match cert with
         | Err err => ret (Err err)
         | Ok cert =>
             let dbTLSConfig :=
               {| tls.RootCAs := rootCertPool;
                  tls.Certificates := [cert] |} in
             let tconfKey := "custom" in
             err <- mysql_RegisterTLSConfig tconfKey dbTLSConfig ;;
             match err with
             | Some err => ret (Err err)
             | None => ret (Ok tconfKey)
             end
         end
   end)%go.

(** [if v, ok := os.LookupEnv(name); ok { dconf.f = v }]. *)
Definition override (name : string)
    (set : string -> mysql.Config -> mysql.Config) (dconf : mysql.Config)
  : M Sys mysql.Config :=
  (v <- os_LookupEnv name ;;
   match v with
   | Some v => ret (set v dconf)
   | None => ret dconf
   end)%go.

(** [dbConfFromEnv]. *)
Definition dbConfFromEnv : M Sys (result mysql.Config) :=
  (let dconf :=
     {| mysql.User := "root"; mysql.Passwd := ""; mysql.Net := "tcp";
        mysql.Addr := "localhost:3306"; mysql.DBName := "test";
        mysql.Loc := time.UTC; mysql.ParseTime := true;
        mysql.TLSConfig := "" |} in
   dconf <- override "DB_USER" mysql.set_User dconf ;;
   dconf <- override "DB_PASS" mysql.set_Passwd dconf ;;
   dconf <- override "DB_ADDR" mysql.set_Addr dconf ;;
   dconf <- override "DB_NAME" mysql.set_DBName dconf ;;
   skip <- os_LookupEnv "DB_SKIP_TLS" ;;
   match skip with
   | Some _ => ret (Ok dconf)
   | None =>
       caCertPath <- os_LookupEnv "DB_CA_CERT_PATH" ;;
       match caCertPath with
       | None => ret (Err errCertPath)
       | Some caCertPath =>
           clientCertPath <- os_LookupEnv "DB_CLIENT_CERT_PATH" ;;
           match clientCertPath with
           | None => ret (Err errClientCertPath)
           | Some clientCertPath =>
               clientKeyPath <- os_LookupEnv "DB_CLIENT_KEY_PATH" ;;
               match clientKeyPath with
               | None => ret (Err errClientKeyPath)
               | Some clientKeyPath =>
                   tconf <- tlsConfig caCertPath clientCertPath
                                      clientKeyPath ;;
                   match tconf with
                   | Err err => ret (Err err)
                   | Ok tconf =>
                       ret (Ok (mysql.set_TLSConfig tconf dconf))
                   end
               end
           end
       end
   end)%go.

(** [newDB]: open the handle, then ping.  The handle is identified with
    the DSN it was opened on. *)
Definition newDB (dconf : mysql.Config) : M Sys (result string) :=
  (let dsn := mysql.FormatDSN dconf in
   sys_emit (SysOpen "mysql" dsn) ;;;
   match mysql.Open "mysql" dsn with
   | Some err => ret (Err (errors_New ("newDB Open: " +:+ Error err)))
   | None =>
       sys_emit SysPing ;;;
       match mysql.Ping dsn with
       | Some err => ret (Err (errors_New ("newDB Ping: " +:+ Error err)))
       | None => ret (Ok dsn)
       end
   end)%go.

(** [main]. *)
Definition main : M Sys Exit :=
  (sys_log "starting" ;;;
   v <- os_LookupEnv "REQLOGD_ADDR" ;;
   let addr := match v with Some v => v | None => ":8080" end in
   dconf <- dbConfFromEnv ;;
   match dconf with
   | Err err => log_Fatal err
   | Ok dconf =>
       d <- newDB dconf ;;
       match d with
       | Err err => log_Fatal err
       | Ok d =>
           sys_emit (SysHandleFunc "/") ;;;
           sys_log ("listening on " +:+ addr) ;;;
           sys_emit (SysListen addr) ;;;
           ret (Serving addr)
       end
   end)%go.

End Startup.

(** ** Package [context] *)

Module context.

(** A context is observed through [Err]: non-nil once it is cancelled or
    past its deadline. *)
Record Context := { Err : option error }.

End context.

(** ** Package [net/url] *)

Module url.

Record Userinfo := { username : string; password : option string }.

Record URL := {
  Scheme : string;
  Opaque : string;
  User : option Userinfo;
  Host : string;
  Path : string;
  RawPath : string;
  OmitHost : bool;
  ForceQuery : bool;
  RawQuery : string;
  Fragment : string;
  RawFragment : string
}.

Definition set_Host (v : string) (u : URL) : URL :=
  {| Scheme := Scheme u; Opaque := Opaque u; User := User u; Host := v;
     Path := Path u; RawPath := RawPath u; OmitHost := OmitHost u;
     ForceQuery := ForceQuery u; RawQuery := RawQuery u;
     Fragment := Fragment u; RawFragment := RawFragment u |}.
Definition set_Scheme (v : string) (u : URL) : URL :=
  {| Scheme := v; Opaque := Opaque u; User := User u; Host := Host u;
     Path := Path u; RawPath := RawPath u; OmitHost := OmitHost u;
     ForceQuery := ForceQuery u; RawQuery := RawQuery u;
     Fragment := Fragment u; RawFragment := RawFragment u |}.

(** The percent-encoding the package applies to the parts of a URL. *)
Class Escaping := {
  escapeHost : string -> string;
  EscapedPath : URL -> string;
  EscapedFragment : URL -> string;
  UserinfoString : Userinfo -> string
}.

(** [s != ""]. *)
Definition nonempty (s : string) : bool :=
  match s with EmptyString => false | String _ _ => true end.

(** [path[0] != '/'], for a non-empty [path]. *)
Definition relative (path : string) : bool :=
  match path with
  | EmptyString => false
  | String c _ => negb (bool_decide (c = "/"%char))
  end.

(** Whether the part of [path] before its first slash holds a colon. *)
Fixpoint firstSegmentHasColon (path : string) : bool :=
  match path with
  | EmptyString => false
  | String c rest =>
      if bool_decide (c = "/"%char) then false
      else if bool_decide (c = ":"%char) then true
      else firstSegmentHasColon rest
  end.

(** The method [String] of [URL]. *)
Definition URL_String `{Escaping} (u : URL) : string :=
  let buf := "" in
  let buf := if nonempty (Scheme u) then buf +:+ Scheme u +:+ ":"
             else buf in
  let buf :=
    if nonempty (Opaque u) then buf +:+ Opaque u
    else
      let buf :=
        if nonempty (Scheme u) || nonempty (Host u)
           || bool_decide (is_Some (User u))
        then
          if OmitHost u && negb (nonempty (Host u))
             && negb (bool_decide (is_Some (User u)))
          then buf
          else
            let buf :=
              if nonempty (Host u) || nonempty (Path u)
                 || bool_decide (is_Some (User u))
              then buf +:+ "//" else buf in
            let buf :=
              match User u with
              | Some ui => buf +:+ UserinfoString ui +:+ "@"
              | None => buf
              end in
            if nonempty (Host u) then buf +:+ escapeHost (Host u)
            else buf
        else buf in
      let path := EscapedPath u in
      let buf :=
        if nonempty path && relative path && nonempty (Host u)
        then buf +:+ "/" else buf in
      let buf :=
        if negb (nonempty buf) && firstSegmentHasColon path
        then buf +:+ "./" else buf in
      buf +:+ path in
  let buf :=
    if ForceQuery u || nonempty (RawQuery u)
    then buf +:+ "?" +:+ RawQuery u else buf in
  let buf :=
    if nonempty (Fragment u) then buf +:+ "#" +:+ EscapedFragment u
    else buf in
  buf.

Definition letter (c : Ascii.ascii) : bool :=
  let n := Ascii.nat_of_ascii c in
  ((97 <=? n) && (n <=? 122) || (65 <=? n) && (n <=? 90))%nat.

Definition schemeSymbol (c : Ascii.ascii) : bool :=
  let n := Ascii.nat_of_ascii c in
  ((48 <=? n) && (n <=? 57))%nat
  || bool_decide (c = "+"%char) || bool_decide (c = "-"%char)
  || bool_decide (c = "."%char).

(** The loop of [getScheme]: the characters up to the first colon when
    they form a scheme, [None] when the text has no scheme. *)
Fixpoint scanScheme (first : bool) (rawURL : string) : option string :=
  match rawURL with
  | EmptyString => None
  | String c rest =>
      if letter c then String c <$> scanScheme false rest
      else if schemeSymbol c then
        if first then None else String c <$> scanScheme false rest
      else if bool_decide (c = ":"%char) then
        if first then None else Some EmptyString
      else None
  end.

(** [getScheme], the way [url.Parse] reads the scheme back from a
    rendered URL; a text without a scheme yields the empty scheme. *)
Definition getScheme (rawURL : string) : string :=
  default "" (scanScheme true rawURL).

End url.

(** ** Packages [io] and [io/ioutil] *)

Module io.

Definition EOF : error := errors_New "EOF".

(** A reader is the sequence of outcomes of its successive [Read] calls:
    the bytes delivered and the error reported with them.  A reader with
    nothing left reports [EOF]. *)
Definition Reader : Type := list (string * option error).

(** [ioutil.ReadAll]: read until an error or [EOF], return what was read;
    [EOF] is not reported as an error. *)
Fixpoint ReadAll (r : Reader) : string * option error :=
  match r with
  | [] => ("", None)
  | (p, Some err) :: _ =>
      (p, if bool_decide (err = EOF) then None else Some err)
  | (p, None) :: r' =>
      let (b, err) := ReadAll r' in (p +:+ b, err)
  end.

End io.

(** ** Package [net/http] *)

Module http.

(** A received request.  [Header] lists the entries of the header map
    in the order the runtime happens to iterate them; a map has each
    key once. *)
Record Request := {
  Method : string;
  URL : url.URL;
  Proto : string;
  Header : list (string * list string);
  Body : option io.Reader;
  Host : string;
  RemoteAddr : string;
  TLS : option tls.ConnectionState;
  Context : context.Context
}.

(** The server's response writer: whether the status line has been
    committed, with which code, the body bytes accepted so far, and the
    error every write meets when the connection is gone. *)
Record ResponseWriter := {
  wroteHeader : bool;
  status : Z;
  body : string;
  connErr : option error
}.

Definition newResponseWriter (connErr : option error) : ResponseWriter :=
  {| wroteHeader := false; status := 0; body := ""; connErr := connErr |}.

(** [WriteHeader]: the first call commits the status code; a later call
    is superfluous: the server logs it and changes nothing.  (A code
    outside 100..999 makes the package panic; the program passes 500.) *)
Definition WriteHeader (code : Z) (w : ResponseWriter) : ResponseWriter :=
  if wroteHeader w then w
  else {| wroteHeader := true; status := code; body := body w;
          connErr := connErr w |}.

(** [Write]: if [WriteHeader] has not been called yet, the call commits
    status 200 before any byte is written. *)
Definition Write (p : string) (w : ResponseWriter)
  : option error * ResponseWriter :=
  let w := if wroteHeader w then w else WriteHeader 200 w in
  match connErr w with
  | Some err => (Some err, w)
  | None => (None, {| wroteHeader := wroteHeader w; status := status w;
                      body := body w +:+ p; connErr := connErr w |})
  end.

(** What the server does once the handler has returned: a handler that
    never wrote gets status 200. *)
Definition finishRequest (w : ResponseWriter) : ResponseWriter :=
  if wroteHeader w then w else WriteHeader 200 w.

End http.

(** ** Package [encoding/json] *)

Module json.

(** The JSON string literal the package renders for a Go string. *)
Class StringCodec := encodeString : string -> string.

(** A struct field is visible to the package when its name is exported,
    that is, starts with an upper-case letter. *)
Definition exported (name : string) : bool :=
  match name with
  | EmptyString => false
  | String c _ =>
      let n := Ascii.nat_of_ascii c in ((65 <=? n) && (n <=? 90))%nat
  end.

Definition quote (s : string) : string :=
  String "034" (s +:+ String "034" "").

(** [json.Marshal] of a struct whose fields are strings, given as the
    list of its fields with their values. *)
Definition Marshal `{StringCodec} (fields : list (string * string))
  : string :=
  "{" +:+ strings_Join ","
            ((fun f => quote f.1 +:+ ":" +:+ encodeString f.2)
             <$> filter (fun f => exported f.1) fields)
      +:+ "}".

End json.

(** ** Package [fmt] *)

Module fmt.

Definition key_le (a b : string * list string) : Prop :=
  String.le a.1 b.1.

Global Instance key_le_dec : RelDecision key_le.
Proof. intros a b. unfold key_le. apply _. Defined.

(** [fmt.Sprint] of a [map[string][]string], given as the entries the
    runtime yields when the map is iterated.  The package sorts the
    entries by key (byte-wise, as Go compares strings) before it prints
    them, each as [key:[v1 v2]], separated by spaces; this is the
    behaviour of Go 1.12 and later. *)
Definition Sprint (m : list (string * list string)) : string :=
  "map[" +:+ strings_Join " "
               ((fun kv => kv.1 +:+ ":[" +:+ strings_Join " " kv.2 +:+ "]")
                <$> merge_sort key_le m)
         +:+ "]".

End fmt.

(** ** The world of one request *)

(** The [interface{}] arguments the handler hands to the store. *)
Inductive Value :=
| VTime (t : time.Time)
| VString (s : string)
| VInt (n : Z).

(** [sql.Result]. *)
Record sql_Result := { LastInsertId : Z; RowsAffected : Z }.

(** Calls that leave the handler, in the order made, with what each
    returned. *)
Inductive Event :=
| EvNow (t : time.Time)
| EvReadAll (b : string) (err : option error)
| EvLog (line : string)
| EvExec (ctx : context.Context) (query : string) (args : list Value)
         (err : option error)
| EvWrite (p : string) (err : option error)
| EvWriteHeader (code : Z).

(** The object behind [s.db] is shared by all requests, so it lives in the
    world together with the response writer of the request being served
    and the trace. *)
Record World (D : Type) := {
  w_store : D;
  w_resp : http.ResponseWriter;
  w_trace : list Event
}.
Arguments w_store {D} w.
Arguments w_resp {D} w.
Arguments w_trace {D} w.

(** The interface of the [db] field of [server]: the one method, acting
    on the object of type [D] that the interface value points to. *)
Record Execer (D : Type) := {
  ExecContext : context.Context -> string -> list Value -> D ->
                (option sql_Result * option error) * D
}.
Arguments ExecContext {D} e ctx query args store.

(** [server].  The [db] field is an interface value: its method comes
    with the server, the object it points to is the [w_store] of the
    world.  The injected clock [now] takes no argument and reads the
    world, given here as everything that has happened so far. *)
Record server (D : Type) := {
  db : Execer D;
  now : list Event -> time.Time
}.
Arguments db {D} s.
Arguments now {D} s history.

Section Handler.

Context {D : Type} `{url.Escaping} `{json.StringCodec}.

Definition emit (e : Event) : M (World D) unit :=
  fun w => (tt, {| w_store := w_store w; w_resp := w_resp w;
                   w_trace := w_trace w ++ [e] |}).

(** [s.now()]. *)
Definition s_now (s : server D) : M (World D) time.Time :=
  fun w => let t := now s (w_trace w) in
           (t, {| w_store := w_store w; w_resp := w_resp w;
                  w_trace := w_trace w ++ [EvNow t] |}).

(** [ioutil.ReadAll(r.Body)]. *)
Definition ioutil_ReadAll (r : io.Reader)
  : M (World D) (string * option error) :=
  (let (b, err) := io.ReadAll r in
   emit (EvReadAll b err) ;;; ret (b, err))%go.

(** [log.Printf]. *)
Definition log_Printf (line : string) : M (World D) unit :=
  emit (EvLog line).

(** [s.db.ExecContext(ctx, query, args...)]. *)
Definition s_db_ExecContext (s : server D) (ctx : context.Context)
    (query : string) (args : list Value)
  : M (World D) (option sql_Result * option error) :=
  fun w => let (res, d) := ExecContext (db s) ctx query args (w_store w) in
           (res, {| w_store := d; w_resp := w_resp w;
                    w_trace := w_trace w ++ [EvExec ctx query args res.2] |}).

(** [w.Write(p)]. *)
Definition w_Write (p : string) : M (World D) (option error) :=
  fun w => let (err, rw) := http.Write p (w_resp w) in
           (err, {| w_store := w_store w; w_resp := rw;
                    w_trace := w_trace w ++ [EvWrite p err] |}).

(** [w.WriteHeader(code)]. *)
Definition w_WriteHeader (code : Z) : M (World D) unit :=
  fun w => (tt, {| w_store := w_store w;
                   w_resp := http.WriteHeader code (w_resp w);
                   w_trace := w_trace w ++ [EvWriteHeader code] |}).

(** [json.NewEncoder(w).Encode(v)]: the encoding of [v], a newline, in
    one write. *)
Definition json_Encode (fields : list (string * string))
  : M (World D) (option error) :=
  w_Write (json.Marshal fields +:+ String "010" "").

(** ** reqlogd.go: the handler *)

(** [jsonError]. *)
Definition jsonError (msg : string) (code : Z) : M (World D) unit :=
  (err <- json_Encode [("msg", msg)] ;;
   match err with
   | Some err =>
       log_Printf ("jsonError: got error writing to client: "
                   +:+ Error err)
   | None => ret tt
   end ;;;
   w_WriteHeader code)%go.

(** The statement [serveReqLog] sends to the store. *)
Definition insertQuery : string :=
  "insert into request (rat, url, method, remote, headers, length, protocol)"
  +:+ String "010" (String "009" (String "009"
        "values (?, ?, ?, ?, ?, ?, ?)")).

(** [serveReqLog]. *)
Definition serveReqLog (s : server D) (r : http.Request)
  : M (World D) unit :=
  (recievedAt <- s_now s ;;
   let recievedAt := time.Time_UTC recievedAt in
   let u := http.URL r in
   let u := url.set_Host (http.Host r) u in
   let u := url.set_Scheme "http" u in
   let u := match http.TLS r with
            | Some _ => url.set_Scheme "https" u
            | None => u
            end in
   let url := url.URL_String u in
   let method := http.Method r in
   let remote := http.RemoteAddr r in
   let headers := fmt.Sprint (http.Header r) in
   length <- match http.Body r with
             | Some body =>
                 rd <- ioutil_ReadAll body ;;
                 match rd.2 with
                 | Some err =>
                     log_Printf
                       ("serveReqLog: got error reading request body: "
                        +:+ Error err)
                 | None => ret tt
                 end ;;;
                 ret (Z.of_nat (String.length rd.1))
             | None => ret 0
             end ;;
   let protocol := http.Proto r in
   res <- s_db_ExecContext s (http.Context r) insertQuery
            [VTime recievedAt; VString url; VString method;
             VString remote; VString headers; VInt length;
             VString protocol] ;;
   match res.2 with
   | Some err =>
       log_Printf ("serveReqLog: got error writing to DB: " +:+ Error err) ;;;
       jsonError ("internal error: " +:+ Error err) 500
   | None => ret tt
   end)%go.

(** What the HTTP server does with one request: a fresh response writer,
    the handler, then the end of the response. *)
Definition serve (s : server D) (r : http.Request) (connErr : option error)
    (store : D) (history : list Event) : World D :=
  let w := {| w_store := store;
              w_resp := http.newResponseWriter connErr;
              w_trace := history |} in
  let w := (serveReqLog s r w).2 in
  {| w_store := w_store w; w_resp := http.finishRequest (w_resp w);
     w_trace := w_trace w |}.

End Handler.

(** ** Stores *)

(** The test double of the repository's test file: it keeps the records
    it is handed. *)
Module mock.

Record record := {
  rat : time.Time;
  url : string;
  method : string;
  remote : string;
  headers : string;
  length : Z;
  protocol : string
}.

Record mockDB := { rr : list record }.

Definition toTime (v : Value) : option time.Time :=
  match v with VTime t => Some t | _ => None end.
Definition toString (v : Value) : option string :=
  match v with VString s => Some s | _ => None end.
Definition toInt (v : Value) : option Z :=
  match v with VInt n => Some n | _ => None end.

(** The record the double builds from the seven arguments; [None] where
    one of its type assertions fails the test. *)
Definition mock_record (args : list Value) : option record :=
  match args with
  | [a0; a1; a2; a3; a4; a5; a6] =>
      rat ← toTime a0; url ← toString a1; method ← toString a2;
      remote ← toString a3; headers ← toString a4; length ← toInt a5;
      protocol ← toString a6;
      Some {| rat := rat; url := url; method := method; remote := remote;
              headers := headers; length := length; protocol := protocol |}
  | _ => None
  end.

(** The method [ExecContext] of the double.  A failed assertion ends the
    test; it is reported here as an error result. *)
Definition mockDB_Execer : Execer mockDB :=
  {| ExecContext := fun _ _ args md =>
       match mock_record args with
       | Some rec => ((None, None), {| rr := rr md ++ [rec] |})
       | None =>
           ((None, Some (errors_New "expected value passed for field")), md)
       end |}.

End mock.

(** A store whose every insert fails with the error it carries. *)
Record failingDB := { failure : error }.

Definition failingDB_Execer : Execer failingDB :=
  {| ExecContext := fun _ _ _ d => ((None, Some (failure d)), d) |}.

(** reqlogd.go, [db]: the production store, a struct around the handle
    of [database/sql]; its [ExecContext] hands the call on to the handle
    and returns what the handle returns. *)
Record db_handle (S : Type) := { db_db : S }.
Arguments db_db {S} d.

Definition db_ExecContext {S} (handle : Execer S) : Execer (db_handle S) :=
  {| ExecContext := fun ctx query args d =>
       let (res, h) := ExecContext handle ctx query args (db_db d) in
       (res, {| db_db := h |}) |}.

(** ** Vocabulary of the statements *)

(** The connection parameters after the four credential overrides. *)
Definition credentials (env : gmap string string) : mysql.Config :=
  {| mysql.User := default "root" (env !! "DB_USER");
     mysql.Passwd := default "" (env !! "DB_PASS");
     mysql.Net := "tcp";
     mysql.Addr := default "localhost:3306" (env !! "DB_ADDR");
     mysql.DBName := default "test" (env !! "DB_NAME");
     mysql.Loc := time.UTC; mysql.ParseTime := true;
     mysql.TLSConfig := "" |}.

(** The lookups [dbConfFromEnv] makes before it turns to certificates. *)
Definition credential_lookups : list SysCall :=
  SysLookupEnv <$> ["DB_USER"; "DB_PASS"; "DB_ADDR"; "DB_NAME";
                    "DB_SKIP_TLS"].

(** The three path settings, in the order of the source, each with the
    error that reports it missing. *)
Definition certPathErrors : list (string * error) :=
  [("DB_CA_CERT_PATH", errCertPath);
   ("DB_CLIENT_CERT_PATH", errClientCertPath);
   ("DB_CLIENT_KEY_PATH", errClientKeyPath)].

(** The first of the three settings that the environment leaves unset. *)
Definition firstMissing (env : gmap string string)
  : option (string * error) :=
  head (filter (fun p => env !! p.1 = None) certPathErrors).

(** Whether a startup call reads certificate material or registers a
    profile. *)
Definition touchesTrustProfile (c : SysCall) : bool :=
  match c with
  | SysLookupEnv name => bool_decide (name ∈ certPathErrors.*1)
  | SysReadFile _ | SysRegisterTLS _ => true
  | _ => false
  end.

(** The state in which [main] calls [dbConfFromEnv]. *)
Definition before_dbConf (s : Sys) : Sys :=
  sys_calls [SysLog "starting"; SysLookupEnv "REQLOGD_ADDR"] s.

Definition isListen (c : SysCall) : bool :=
  match c with SysListen _ => true | _ => false end.

(** The events of one request: what [serve] adds to the history. *)
Definition emitted {D} `{url.Escaping} `{json.StringCodec}
    (s : server D) (r : http.Request) (connErr : option error) (store : D)
    (history : list Event) : list Event :=
  drop (List.length history) (w_trace (serve s r connErr store history)).

(** The insert among the events of a request: the arguments handed to the
    store and the error it returned. *)
Fixpoint insertOutcome (evs : list Event)
  : option (list Value * option error) :=
  match evs with
  | [] => None
  | EvExec _ _ args err :: _ => Some (args, err)
  | _ :: evs => insertOutcome evs
  end.

(** The error the insert of a request returned, if an insert was made. *)
Definition insertError (evs : list Event) : option (option error) :=
  snd <$> insertOutcome evs.

(** One argument of the insert of a request, by position: 0 the receive
    time, 1 the url, 2 the method, 3 the remote address, 4 the headers,
    5 the body length, 6 the protocol. *)
Definition recordedArg (i : nat) (evs : list Event) : option Value :=
  match insertOutcome evs with
  | Some (args, _) => args !! i
  | None => None
  end.

(** The header map a request carries. *)
Definition headerMap (r : http.Request) : gmap string (list string) :=
  list_to_map (http.Header r).

(** The state after [config] has been registered under [key]. *)
Definition sys_register (key : string) (config : tls.Config) (s : Sys)
  : Sys :=
  {| sys_env := sys_env s; sys_files := sys_files s;
     sys_tls := <[key := config]> (sys_tls s); sys_trace := sys_trace s |}.

(** The calls of a complete run of [tlsConfig], in order. *)
Definition tlsConfigCalls (caCertPath clientCertPath clientKeyPath : string)
  : list SysCall :=
  [SysReadFile caCertPath; SysReadFile clientCertPath;
   SysReadFile clientKeyPath; SysRegisterTLS "custom"].

(** Whether a startup call belongs to configuration resolution. *)
Definition isConfigCall (c : SysCall) : bool :=
  match c with
  | SysLookupEnv _ | SysReadFile _ | SysRegisterTLS _ => true
  | _ => false
  end.

Definition isRegister (c : SysCall) : bool :=
  match c with SysRegisterTLS _ => true | _ => false end.

(** The lookups of the three path settings. *)
Definition certPath_lookups : list SysCall :=
  SysLookupEnv <$> certPathErrors.*1.

(** The address [main] listens on. *)
Definition listenAddr (env : gmap string string) : string :=
  default ":8080" (env !! "REQLOGD_ADDR").

Definition isExec (e : Event) : bool :=
  match e with EvExec _ _ _ _ => true | _ => false end.

(** Whether an event is a call on the response writer. *)
Definition isResponseCall (e : Event) : bool :=
  match e with EvWrite _ _ | EvWriteHeader _ => true | _ => false end.

Definition isReadAll (e : Event) : bool :=
  match e with EvReadAll _ _ => true | _ => false end.

(** A body that delivers [chunks] one read at a time and then reports
    the end of the stream together with the bytes [rest]. *)
Definition cleanReader (chunks : list string) (rest : string) : io.Reader :=
  ((fun c => (c, None)) <$> chunks) ++ [(rest, Some io.EOF)].

(** The total number of bytes in a list of chunks. *)
Definition totalLength (chunks : list string) : nat :=
  sum_list (String.length <$> chunks).

(** The body length the handler records: the bytes [ioutil.ReadAll]
    returns for the body, none for a request without body. *)
Definition drainedLength (r : http.Request) : Z :=
  match http.Body r with
  | Some body => Z.of_nat (String.length (io.ReadAll body).1)
  | None => 0
  end.

(** The query part [URL.String] appends. *)
Definition queryPart (u : url.URL) : string :=
  if url.ForceQuery u || url.nonempty (url.RawQuery u)
  then "?" +:+ url.RawQuery u else "".

(** A URL with the two fields cleared that the handler overwrites. *)
Definition requestTarget (u : url.URL) : url.URL :=
  url.set_Scheme "" (url.set_Host "" u).

(** The url the handler reconstructs for a request. *)
Definition handlerURL (r : http.Request) : url.URL :=
  url.set_Scheme (match http.TLS r with Some _ => "https" | None => "http" end)
                 (url.set_Host (http.Host r) (http.URL r)).

(** The seven arguments the handler hands to the store for a request
    that arrives after [history]. *)
Definition capturedArgs {D} `{url.Escaping} (s : server D)
    (r : http.Request) (history : list Event) : list Value :=
  [VTime (time.Time_UTC (now s history));
   VString (url.URL_String (handlerURL r));
   VString (http.Method r); VString (http.RemoteAddr r);
   VString (fmt.Sprint (http.Header r)); VInt (drainedLength r);
   VString (http.Proto r)].

(** The record the test double keeps for a request. *)
Definition capturedRecord {D} `{url.Escaping} (s : server D)
    (r : http.Request) (history : list Event) : mock.record :=
  {| mock.rat := time.Time_UTC (now s history);
     mock.url := url.URL_String (handlerURL r);
     mock.method := http.Method r;
     mock.remote := http.RemoteAddr r;
     mock.headers := fmt.Sprint (http.Header r);
     mock.length := drainedLength r;
     mock.protocol := http.Proto r |}.

(** ** Fixtures of the examples *)

(** A rendering of URLs in which nothing needs escaping. *)
Definition plainEscaping : url.Escaping :=
  {| url.escapeHost := id; url.EscapedPath := url.Path;
     url.EscapedFragment := url.Fragment;
     url.UserinfoString := url.username |}.

(** A string codec for texts in which nothing needs escaping. *)
Definition plainCodec : json.StringCodec := json.quote.

(** Certificate files holding one certificate each, and always a pair. *)
Definition plainParsing : tls.Parsing :=
  {| tls.parseCertsPEM := fun pem => [pem];
     tls.X509KeyPair := fun certPEM keyPEM =>
       Ok {| tls.Chain := [certPEM]; tls.PrivateKey := keyPEM |} |}.

(** A store that is reachable at every address. *)
Definition reachableDriver : mysql.Driver :=
  {| mysql.FormatDSN := mysql.Addr; mysql.Open := fun _ _ => None;
     mysql.Ping := fun _ => None |}.

(** The environment of scenario 5 with the client key path unset too:
    only the client certificate path is set. *)
Definition sysCertOnly : Sys :=
  {| sys_env := {[ "DB_CLIENT_CERT_PATH" := "/etc/reqlogd/client.pem" ]};
     sys_files := ∅; sys_tls := ∅; sys_trace := [] |}.

(** The environment of scenario 6: the opt-out set, no path set. *)
Definition sysSkipTLS : Sys :=
  {| sys_env := {[ "DB_SKIP_TLS" := "1" ]};
     sys_files := ∅; sys_tls := ∅; sys_trace := [] |}.

(** [GET /] over plaintext, as the repository's test sends it. *)
Definition getRoot : http.Request :=
  {| http.Method := "GET";
     http.URL := {| url.Scheme := ""; url.Opaque := ""; url.User := None;
                    url.Host := ""; url.Path := "/"; url.RawPath := "";
                    url.OmitHost := false; url.ForceQuery := false;
                    url.RawQuery := ""; url.Fragment := "";
                    url.RawFragment := "" |};
     http.Proto := "HTTP/1.1";
     http.Header := [("User-Agent", ["Go-http-client/1.1"]);
                     ("Accept-Encoding", ["gzip"])];
     http.Body := Some [];
     http.Host := "127.0.0.1:8080";
     http.RemoteAddr := "127.0.0.1:49152";
     http.TLS := None;
     http.Context := {| context.Err := None |} |}.

(** The same request as the runtime might present it on another day: the
    header map iterated in the other order. *)
Definition getRootReordered : http.Request :=
  {| http.Method := http.Method getRoot; http.URL := http.URL getRoot;
     http.Proto := http.Proto getRoot;
     http.Header := [("Accept-Encoding", ["gzip"]);
                     ("User-Agent", ["Go-http-client/1.1"])];
     http.Body := http.Body getRoot; http.Host := http.Host getRoot;
     http.RemoteAddr := http.RemoteAddr getRoot;
     http.TLS := http.TLS getRoot; http.Context := http.Context getRoot |}.

(** [POST /anything] whose body delivers three bytes and then breaks. *)
Definition postTruncated : http.Request :=
  {| http.Method := "POST";
     http.URL := {| url.Scheme := ""; url.Opaque := ""; url.User := None;
                    url.Host := ""; url.Path := "/anything";
                    url.RawPath := ""; url.OmitHost := false;
                    url.ForceQuery := false; url.RawQuery := "";
                    url.Fragment := ""; url.RawFragment := "" |};
     http.Proto := "HTTP/1.1";
     http.Header := [("Content-Length", ["5"])];
     http.Body := Some [("hel", None);
                        ("", Some (errors_New "unexpected EOF"))];
     http.Host := "127.0.0.1:8080";
     http.RemoteAddr := "127.0.0.1:49152";
     http.TLS := None;
     http.Context := {| context.Err := None |} |}.

(** A clock that shows the number of events so far, in a zone east of
    Greenwich. *)
Definition tick (history : list Event) : time.Time :=
  {| time.unixNano := Z.of_nat (List.length history);
     time.location := time.Zone "CET" 3600 |}.

(** A server on the test double, with the ticking clock. *)
Definition testServer : server mock.mockDB :=
  {| db := mock.mockDB_Execer; now := tick |}.

(** A server whose store is down. *)
Definition downServer : server failingDB :=
  {| db := failingDB_Execer; now := tick |}.

(** Parsing that finds no certificate in an empty file and no key in an
    empty key file. *)
Definition strictParsing : tls.Parsing :=
  {| tls.parseCertsPEM := fun pem =>
       if bool_decide (pem = "") then [] else [pem];
     tls.X509KeyPair := fun certPEM keyPEM =>
       if bool_decide (keyPEM = "")
       then Err (errors_New "tls: failed to find any PEM data in key input")
       else Ok {| tls.Chain := [certPEM]; tls.PrivateKey := keyPEM |} |}.

(** A store that can be opened but does not answer. *)
Definition unreachableDriver : mysql.Driver :=
  {| mysql.FormatDSN := mysql.Addr; mysql.Open := fun _ _ => None;
     mysql.Ping := fun _ => Some (errors_New "connection refused") |}.

(** A driver that rejects every DSN. *)
Definition rejectingDriver : mysql.Driver :=
  {| mysql.FormatDSN := mysql.Addr;
     mysql.Open := fun _ _ => Some (errors_New "invalid DSN");
     mysql.Ping := fun _ => None |}.

(** An environment with the three paths set, and a listen address. *)
Definition certEnv : gmap string string :=
  {[ "DB_CA_CERT_PATH" := "/certs/ca.pem";
     "DB_CLIENT_CERT_PATH" := "/certs/client.pem";
     "DB_CLIENT_KEY_PATH" := "/certs/client.key";
     "REQLOGD_ADDR" := ":9090" ]}.

(** The three files in place. *)
Definition sysWithCerts : Sys :=
  {| sys_env := certEnv;
     sys_files := {[ "/certs/ca.pem" := "CA";
                     "/certs/client.pem" := "CERT";
                     "/certs/client.key" := "KEY" ]};
     sys_tls := ∅; sys_trace := [] |}.

(** The paths set, the files not there. *)
Definition sysWithoutFiles : Sys :=
  {| sys_env := certEnv; sys_files := ∅; sys_tls := ∅; sys_trace := [] |}.

(** The CA file there, but empty. *)
Definition sysEmptyCA : Sys :=
  {| sys_env := certEnv;
     sys_files := {[ "/certs/ca.pem" := "";
                     "/certs/client.pem" := "CERT";
                     "/certs/client.key" := "KEY" ]};
     sys_tls := ∅; sys_trace := [] |}.

(** The key file there, but empty. *)
Definition sysEmptyKey : Sys :=
  {| sys_env := certEnv;
     sys_files := {[ "/certs/ca.pem" := "CA";
                     "/certs/client.pem" := "CERT";
                     "/certs/client.key" := "" ]};
     sys_tls := ∅; sys_trace := [] |}.

(** Scenario 2: [POST /anything] whose five bytes arrive in two reads. *)
Definition postHello : http.Request :=
  {| http.Method := "POST"; http.URL := http.URL postTruncated;
     http.Proto := "HTTP/1.1"; http.Header := http.Header postTruncated;
     http.Body := Some (cleanReader ["he"; "llo"] "");
     http.Host := http.Host postTruncated;
     http.RemoteAddr := http.RemoteAddr postTruncated;
     http.TLS := None; http.Context := http.Context postTruncated |}.

(** [GET /] as a handler may be called directly, with no body at all. *)
Definition getRootNoBody : http.Request :=
  {| http.Method := "GET"; http.URL := http.URL getRoot;
     http.Proto := "HTTP/1.1"; http.Header := http.Header getRoot;
     http.Body := None; http.Host := http.Host getRoot;
     http.RemoteAddr := http.RemoteAddr getRoot;
     http.TLS := None; http.Context := http.Context getRoot |}.

(** [GET /] with a request line in absolute form that names another
    scheme and another host than the Host header. *)
Definition getRootAbsolute : http.Request :=
  {| http.Method := "GET";
     http.URL := url.set_Scheme "ftp"
                   (url.set_Host "elsewhere.test" (http.URL getRoot));
     http.Proto := "HTTP/1.1"; http.Header := http.Header getRoot;
     http.Body := http.Body getRoot; http.Host := http.Host getRoot;
     http.RemoteAddr := http.RemoteAddr getRoot;
     http.TLS := None; http.Context := http.Context getRoot |}.

(** * Startup: configuration resolution *)

Section StartupFacts.

Context `{tls.Parsing} `{mysql.Driver}.

Lemma sys_calls_calls cs ds s :
  sys_calls ds (sys_calls cs s) = sys_calls (cs ++ ds) s.
Proof. unfold sys_calls; simpl. by rewrite app_assoc. Qed.

Ltac split_credentials s :=
  unfold dbConfFromEnv, override, os_LookupEnv, sys_emit, bind, ret,
         credentials;
  simpl;
  repeat match goal with
    | H : sys_env s !! ?k = _ |- context [sys_env s !! ?k] =>
        rewrite H; simpl
    | |- context [sys_env s !! ?k] =>
        destruct (sys_env s !! k); simpl
    end;
  rewrite ?sys_calls_calls; reflexivity.

Lemma dbConfFromEnv_skip s v :
  sys_env s !! "DB_SKIP_TLS" = Some v ->
  dbConfFromEnv s
  = (Ok (credentials (sys_env s)), sys_calls credential_lookups s).
Proof. intros Hskip. split_credentials s. Qed.

Lemma dbConfFromEnv_no_ca s :
  sys_env s !! "DB_SKIP_TLS" = None ->
  sys_env s !! "DB_CA_CERT_PATH" = None ->
  dbConfFromEnv s
  = (Err errCertPath,
     sys_calls (credential_lookups ++ [SysLookupEnv "DB_CA_CERT_PATH"]) s).
Proof. intros Hskip Hca. split_credentials s. Qed.

Lemma dbConfFromEnv_no_cert s ca :
  sys_env s !! "DB_SKIP_TLS" = None ->
  sys_env s !! "DB_CA_CERT_PATH" = Some ca ->
  sys_env s !! "DB_CLIENT_CERT_PATH" = None ->
  dbConfFromEnv s
  = (Err errClientCertPath,
     sys_calls (credential_lookups
                ++ (SysLookupEnv <$> ["DB_CA_CERT_PATH";
                                      "DB_CLIENT_CERT_PATH"])) s).
Proof. intros Hskip Hca Hcert. split_credentials s. Qed.

Lemma dbConfFromEnv_no_key s ca cert :
  sys_env s !! "DB_SKIP_TLS" = None ->
  sys_env s !! "DB_CA_CERT_PATH" = Some ca ->
  sys_env s !! "DB_CLIENT_CERT_PATH" = Some cert ->
  sys_env s !! "DB_CLIENT_KEY_PATH" = None ->
  dbConfFromEnv s
  = (Err errClientKeyPath,
     sys_calls (credential_lookups
                ++ (SysLookupEnv <$> ["DB_CA_CERT_PATH";
                                      "DB_CLIENT_CERT_PATH";
                                      "DB_CLIENT_KEY_PATH"])) s).
Proof. intros Hskip Hca Hcert Hkey. split_credentials s. Qed.

(** A failed configuration resolution ends [main] in [log.Fatal]. *)
Lemma main_fatal s e cs :
  dbConfFromEnv (before_dbConf s) = (Err e, sys_calls cs (before_dbConf s)) ->
  main s = (Exited 1,
            sys_calls ([SysLog "starting"; SysLookupEnv "REQLOGD_ADDR"]
                       ++ cs ++ [SysLog (Error e); SysExit 1]) s).
Proof.
  intros Hconf. unfold main, bind at 1 2 3.
  unfold sys_log, os_LookupEnv, sys_emit, bind at 1.
  rewrite sys_calls_calls. change ([SysLog "starting"] ++ _)
    with [SysLog "starting"; SysLookupEnv "REQLOGD_ADDR"].
  fold (before_dbConf s). rewrite Hconf.
  unfold log_Fatal, sys_log, sys_emit, bind, ret.
  rewrite !sys_calls_calls. unfold before_dbConf.
  rewrite sys_calls_calls. reflexivity.
Qed.

Lemma firstMissing_unset env name e :
  firstMissing env = Some (name, e) ->
  (name, e) ∈ certPathErrors ∧ env !! name = None.
Proof.
  unfold firstMissing. intros Hhd. apply head_Some_elem_of in Hhd.
  apply list_elem_of_filter in Hhd as [Hnone Hin]. done.
Qed.

Lemma firstMissing_exists env :
  env !! "DB_CA_CERT_PATH" = None ∨ env !! "DB_CLIENT_CERT_PATH" = None
  ∨ env !! "DB_CLIENT_KEY_PATH" = None ->
  ∃ name e, firstMissing env = Some (name, e).
Proof.
  intros Hmiss. unfold firstMissing, certPathErrors.
  rewrite !filter_cons, filter_nil. simpl.
  repeat case_decide; simpl; eauto. by destruct Hmiss as [?|[?|?]].
Qed.

(** The three checks happen in the order of [certPathErrors], and the
    first unset path ends the resolution with its own error. *)
Lemma dbConfFromEnv_first_missing s name e :
  sys_env s !! "DB_SKIP_TLS" = None ->
  firstMissing (sys_env s) = Some (name, e) ->
  ∃ i, certPathErrors !! i = Some (name, e)
       ∧ dbConfFromEnv s
         = (Err e,
            sys_calls (credential_lookups
                       ++ (SysLookupEnv <$> take (S i) certPathErrors.*1))
                      s).
Proof.
  intros Hskip. unfold firstMissing, certPathErrors.
  rewrite !filter_cons, filter_nil. simpl. intros Hfirst.
  destruct (sys_env s !! "DB_CA_CERT_PATH") as [ca|] eqn:Hca.
  2:{ rewrite decide_True in Hfirst by done. simplify_eq/=.
      exists 0%nat. split; [done|]. by apply dbConfFromEnv_no_ca. }
  rewrite decide_False in Hfirst by done.
  destruct (sys_env s !! "DB_CLIENT_CERT_PATH") as [cert|] eqn:Hcert.
  2:{ rewrite decide_True in Hfirst by done. simplify_eq/=.
      exists 1%nat. split; [done|]. by eapply dbConfFromEnv_no_cert. }
  rewrite decide_False in Hfirst by done.
  destruct (sys_env s !! "DB_CLIENT_KEY_PATH") as [key|] eqn:Hkey.
  2:{ rewrite decide_True in Hfirst by done. simplify_eq/=.
      exists 2%nat. split; [done|]. by eapply dbConfFromEnv_no_key. }
  rewrite decide_False in Hfirst by done. done.
Qed.

(** C10: with the TLS opt-out unset, [dbConfFromEnv] looks the three
    path settings up in the fixed order CA certificate, client
    certificate, client key, and stops at the first one that is unset:
    the error it returns is the one of the earliest missing path, and
    the certificate lookups it has made are the settings up to and
    including that one. *)
Theorem dbConfFromEnv_reports_earliest_missing_path s name e :
  sys_env s !! "DB_SKIP_TLS" = None ->
  firstMissing (sys_env s) = Some (name, e) ->
  (dbConfFromEnv s).1 = Err e
  ∧ ∃ i, certPathErrors !! i = Some (name, e)
         ∧ sys_trace (dbConfFromEnv s).2
           = sys_trace s ++ credential_lookups
             ++ (SysLookupEnv <$> take (S i) certPathErrors.*1).
Proof.
  intros Hskip Hfirst.
  destruct (dbConfFromEnv_first_missing s name e Hskip Hfirst)
    as (i & Hi & ->).
  split; [done|]. exists i. split; [done|]. reflexivity.
Qed.

(** C5: with the TLS opt-out unset and one of the three path settings
    missing, configuration resolution fails with the error of a missing
    setting, whose message starts with the name of that setting; [main]
    logs it and exits with status 1 without ever listening; and the
    three errors are pairwise distinct. *)
Theorem missing_cert_path_is_fatal_before_listening s :
  sys_env s !! "DB_SKIP_TLS" = None ->
  sys_env s !! "DB_CA_CERT_PATH" = None
  ∨ sys_env s !! "DB_CLIENT_CERT_PATH" = None
  ∨ sys_env s !! "DB_CLIENT_KEY_PATH" = None ->
  (∃ name e calls,
      (name, e) ∈ certPathErrors
      ∧ sys_env s !! name = None
      ∧ Error e = name +:+ " is required and was not set"
      ∧ (dbConfFromEnv s).1 = Err e
      ∧ main s = (Exited 1, sys_calls calls s)
      ∧ SysLog (Error e) ∈ calls
      ∧ last calls = Some (SysExit 1)
      ∧ Forall (fun c => isListen c = false) calls)
  ∧ NoDup (certPathErrors.*2).
Proof.
  intros Hskip Hmiss. split.
  2:{ unfold certPathErrors; simpl. compute_done. }
  destruct (firstMissing_exists _ Hmiss) as (name & e & Hfirst).
  destruct (firstMissing_unset _ _ _ Hfirst) as [Hin Hnone].
  destruct (dbConfFromEnv_first_missing s name e Hskip Hfirst)
    as (i & Hi & Hconf).
  destruct (dbConfFromEnv_first_missing (before_dbConf s) name e
              Hskip Hfirst) as (j & Hj & Hmain).
  apply main_fatal in Hmain.
  exists name, e. eexists. split; [done|]. split; [done|].
  split.
  { unfold certPathErrors in Hin.
    repeat (apply elem_of_cons in Hin as [Hin|Hin]; [by simplify_eq|]).
    by apply elem_of_nil in Hin. }
  split; [by rewrite Hconf|]. split; [exact Hmain|].
  split.
  { rewrite !elem_of_app. right. right. apply elem_of_cons. by left. }
  split.
  { by rewrite !last_app. }
  rewrite !Forall_app. repeat split; try by repeat constructor.
  apply Forall_fmap, Forall_true. done.
Qed.

(** C8: with the TLS opt-out set, [dbConfFromEnv] succeeds whatever the
    three path settings are; it makes the five credential lookups and
    nothing else, so no path setting is looked up, no file is read and
    no profile is registered; the registry is unchanged and the
    connection parameters name no TLS profile. *)
Theorem tls_opt_out_skips_trust_profile s :
  is_Some (sys_env s !! "DB_SKIP_TLS") ->
  ∃ dconf calls,
    dbConfFromEnv s = (Ok dconf, sys_calls calls s)
    ∧ dconf = credentials (sys_env s)
    ∧ mysql.TLSConfig dconf = ""
    ∧ Forall (fun c => touchesTrustProfile c = false) calls
    ∧ sys_tls (dbConfFromEnv s).2 = sys_tls s.
Proof.
  intros [v Hskip]. rewrite (dbConfFromEnv_skip s v Hskip). simpl.
  eexists _, _. repeat split.
  unfold credential_lookups. simpl. repeat constructor.
Qed.

(** ** The trust profile: [tlsConfig] *)

Lemma reservedKey_custom : mysql.reservedKey "custom" = false.
Proof. reflexivity. Qed.

Ltac run_tlsConfig :=
  unfold tlsConfig, tls_LoadX509KeyPair, ioutil_ReadFile,
         mysql_RegisterTLSConfig, sys_emit, bind, ret;
  simpl;
  repeat match goal with
    | H : sys_files ?s !! ?k = _ |- context [sys_files ?s !! ?k] =>
        rewrite H; simpl
    | H : tls.parseCertsPEM ?p = _ |- context [tls.parseCertsPEM ?p] =>
        rewrite H; simpl
    | H : tls.X509KeyPair ?c ?k = _ |- context [tls.X509KeyPair ?c ?k] =>
        rewrite H; simpl
    | |- context [sys_files ?s !! ?k] =>
        destruct (sys_files s !! k) eqn:?; simpl
    | |- context [bool_decide (tls.parseCertsPEM ?p = [])] =>
        destruct (bool_decide_reflect (tls.parseCertsPEM p = [])); simpl
    | |- context [tls.X509KeyPair ?c ?k] =>
        destruct (tls.X509KeyPair c k) eqn:?; simpl
    end;
  rewrite ?reservedKey_custom; simpl;
  rewrite ?sys_calls_calls; simpl; rewrite <- ?app_assoc; simpl.

(** X1: [tlsConfig] leaves the environment and the files as they are,
    and what it does is a prefix of: read the CA file, read the client
    certificate file, read the client key file, register the profile
    [custom]. *)
Theorem tlsConfig_reads_its_three_files_in_order
    caCertPath clientCertPath clientKeyPath s :
  let s' := (tlsConfig caCertPath clientCertPath clientKeyPath s).2 in
  sys_env s' = sys_env s
  ∧ sys_files s' = sys_files s
  ∧ ∃ calls,
      sys_trace s' = sys_trace s ++ calls
      ∧ calls `prefix_of`
          tlsConfigCalls caCertPath clientCertPath clientKeyPath.
Proof.
  unfold tlsConfigCalls.
  run_tlsConfig; (split; [done|]); (split; [done|]);
    eexists; (split; [reflexivity|]);
    repeat (apply prefix_cons); try apply prefix_nil; done.
Qed.

(** X2: when [tlsConfig] fails, whatever the reason, it has registered
    nothing: the state differs from the one before only by the calls
    made, and none of them is a registration. *)
Theorem tlsConfig_failure_registers_nothing
    caCertPath clientCertPath clientKeyPath s e :
  (tlsConfig caCertPath clientCertPath clientKeyPath s).1 = Err e ->
  ∃ calls,
    (tlsConfig caCertPath clientCertPath clientKeyPath s).2
    = sys_calls calls s
    ∧ Forall (fun c => isRegister c = false) calls.
Proof.
  run_tlsConfig; intros Herr; try discriminate;
    eexists; (split; [reflexivity|repeat constructor]).
Qed.

(** X3: with a CA file that holds at least one certificate and client
    files that form a pair, [tlsConfig] returns the name [custom] after
    registering under it the roots parsed from the CA file and the one
    client certificate, having read the three files in order. *)
Theorem tlsConfig_registers_custom
    caCertPath clientCertPath clientKeyPath s pem certPEM keyPEM pair :
  sys_files s !! caCertPath = Some pem ->
  tls.parseCertsPEM pem ≠ [] ->
  sys_files s !! clientCertPath = Some certPEM ->
  sys_files s !! clientKeyPath = Some keyPEM ->
  tls.X509KeyPair certPEM keyPEM = Ok pair ->
  tlsConfig caCertPath clientCertPath clientKeyPath s
  = (Ok "custom",
     sys_register "custom"
       {| tls.RootCAs := tls.parseCertsPEM pem;
          tls.Certificates := [pair] |}
       (sys_calls (tlsConfigCalls caCertPath clientCertPath clientKeyPath)
                  s)).
Proof.
  intros Hca Hroots Hcert Hkey Hpair. run_tlsConfig; [done|].
  reflexivity.
Qed.

(** X4: a name returned by [tlsConfig] is always [custom] and is always
    registered, with a non-empty root set and exactly one client
    certificate; every other entry of the registry is as before. *)
Theorem tlsConfig_result_is_registered
    caCertPath clientCertPath clientKeyPath s key :
  (tlsConfig caCertPath clientCertPath clientKeyPath s).1 = Ok key ->
  let s' := (tlsConfig caCertPath clientCertPath clientKeyPath s).2 in
  key = "custom"
  ∧ (∃ config, sys_tls s' !! key = Some config
               ∧ tls.RootCAs config ≠ []
               ∧ List.length (tls.Certificates config) = 1%nat)
  ∧ ∀ other, other ≠ key -> sys_tls s' !! other = sys_tls s !! other.
Proof.
  run_tlsConfig; intros Hok; try discriminate. simplify_eq.
  split; [done|]. split.
  - eexists. rewrite lookup_insert_eq. done.
  - intros other Hne. by rewrite lookup_insert_ne.
Qed.

(** X5: when the CA file cannot be read, [tlsConfig] returns the error
    of the read unchanged and stops: the client files are not touched. *)
Theorem tlsConfig_unreadable_ca
    caCertPath clientCertPath clientKeyPath s e :
  (ioutil_ReadFile caCertPath s).1 = Err e ->
  tlsConfig caCertPath clientCertPath clientKeyPath s
  = (Err e, sys_calls [SysReadFile caCertPath] s).
Proof.
  run_tlsConfig; intros Hread; try discriminate. by simplify_eq.
Qed.

(** X6: when the CA file holds no certificate, [tlsConfig] fails with
    [errCertPEM] and stops: the client files are not touched. *)
Theorem tlsConfig_ca_without_certificate
    caCertPath clientCertPath clientKeyPath s pem :
  sys_files s !! caCertPath = Some pem ->
  tls.parseCertsPEM pem = [] ->
  tlsConfig caCertPath clientCertPath clientKeyPath s
  = (Err errCertPEM, sys_calls [SysReadFile caCertPath] s).
Proof. intros Hca Hroots. run_tlsConfig. reflexivity. Qed.

(** X7: when the client certificate and key do not form a pair,
    [tlsConfig] returns the error of the pairing unchanged, after the
    three reads and without registering anything. *)
Theorem tlsConfig_key_pair_mismatch
    caCertPath clientCertPath clientKeyPath s pem certPEM keyPEM e :
  sys_files s !! caCertPath = Some pem ->
  tls.parseCertsPEM pem ≠ [] ->
  sys_files s !! clientCertPath = Some certPEM ->
  sys_files s !! clientKeyPath = Some keyPEM ->
  tls.X509KeyPair certPEM keyPEM = Err e ->
  tlsConfig caCertPath clientCertPath clientKeyPath s
  = (Err e,
     sys_calls [SysReadFile caCertPath; SysReadFile clientCertPath;
                SysReadFile clientKeyPath] s).
Proof.
  intros Hca Hroots Hcert Hkey Hpair. run_tlsConfig; [done|].
  reflexivity.
Qed.

(** What [tlsConfig] does stays within configuration resolution. *)
Lemma tlsConfig_config_calls caCertPath clientCertPath clientKeyPath s :
  let s' := (tlsConfig caCertPath clientCertPath clientKeyPath s).2 in
  sys_env s' = sys_env s ∧ sys_files s' = sys_files s
  ∧ ∃ calls, sys_trace s' = sys_trace s ++ calls
             ∧ Forall (fun c => isConfigCall c = true) calls.
Proof.
  run_tlsConfig; (split; [done|]); (split; [done|]);
    eexists; (split; [reflexivity|repeat constructor]).
Qed.

(** ** Configuration resolution with certificates *)

#[local] Arguments tlsConfig : simpl never.

(** With the opt-out unset and the three paths set, [dbConfFromEnv] is
    the eight lookups followed by [tlsConfig] on the three values. *)
Lemma dbConfFromEnv_tls_path s ca cert key :
  sys_env s !! "DB_SKIP_TLS" = None ->
  sys_env s !! "DB_CA_CERT_PATH" = Some ca ->
  sys_env s !! "DB_CLIENT_CERT_PATH" = Some cert ->
  sys_env s !! "DB_CLIENT_KEY_PATH" = Some key ->
  dbConfFromEnv s
  = let (r, s') := tlsConfig ca cert key
                     (sys_calls (credential_lookups ++ certPath_lookups) s) in
    (match r with
     | Err e => Err e
     | Ok name => Ok (mysql.set_TLSConfig name (credentials (sys_env s)))
     end, s').
Proof.
  intros Hskip Hca Hcert Hkey.
  unfold dbConfFromEnv, override, os_LookupEnv, sys_emit, bind, ret,
         credentials, credential_lookups, certPath_lookups, certPathErrors.
  simpl.
  repeat match goal with
    | H : sys_env s !! ?k = _ |- context [sys_env s !! ?k] =>
        rewrite H; simpl
    | |- context [sys_env s !! ?k] =>
        destruct (sys_env s !! k); simpl
    end;
  rewrite ?sys_calls_calls; simpl;
  destruct (tlsConfig _ _ _ _) as [[name|e] s']; reflexivity.
Qed.

(** X8: with the opt-out unset and the three paths set, [dbConfFromEnv]
    hands the three values to [tlsConfig] after its eight lookups: it
    fails exactly when [tlsConfig] fails, with the same error, and on
    success the name [tlsConfig] returns is the [TLSConfig] of the
    connection parameters, whose credentials are those of the
    environment. *)
Theorem dbConfFromEnv_hands_paths_to_tlsConfig s ca cert key :
  sys_env s !! "DB_SKIP_TLS" = None ->
  sys_env s !! "DB_CA_CERT_PATH" = Some ca ->
  sys_env s !! "DB_CLIENT_CERT_PATH" = Some cert ->
  sys_env s !! "DB_CLIENT_KEY_PATH" = Some key ->
  let tls := tlsConfig ca cert key
               (sys_calls (credential_lookups ++ certPath_lookups) s) in
  (dbConfFromEnv s).2 = tls.2
  ∧ (∀ e, (dbConfFromEnv s).1 = Err e ↔ tls.1 = Err e)
  ∧ (∀ name, tls.1 = Ok name ->
             (dbConfFromEnv s).1
             = Ok (mysql.set_TLSConfig name (credentials (sys_env s)))).
Proof.
  intros Hskip Hca Hcert Hkey.
  rewrite (dbConfFromEnv_tls_path s ca cert key) by done.
  destruct (tlsConfig _ _ _ _) as [[name|e] s']; simpl;
    repeat split; intros; by simplify_eq.
Qed.

(** Every way [dbConfFromEnv] can go, by what the environment sets. *)
Lemma dbConfFromEnv_cases s :
  (∃ v, sys_env s !! "DB_SKIP_TLS" = Some v
        ∧ dbConfFromEnv s
          = (Ok (credentials (sys_env s)), sys_calls credential_lookups s))
  ∨ (sys_env s !! "DB_SKIP_TLS" = None
     ∧ ∃ name e calls,
         (name, e) ∈ certPathErrors ∧ sys_env s !! name = None
         ∧ Forall (fun c => isConfigCall c = true) calls
         ∧ dbConfFromEnv s = (Err e, sys_calls calls s))
  ∨ (sys_env s !! "DB_SKIP_TLS" = None
     ∧ ∃ ca cert key,
         sys_env s !! "DB_CA_CERT_PATH" = Some ca
         ∧ sys_env s !! "DB_CLIENT_CERT_PATH" = Some cert
         ∧ sys_env s !! "DB_CLIENT_KEY_PATH" = Some key
         ∧ dbConfFromEnv s
           = let (r, s') :=
               tlsConfig ca cert key
                 (sys_calls (credential_lookups ++ certPath_lookups) s) in
             (match r with
              | Err e => Err e
              | Ok name =>
                  Ok (mysql.set_TLSConfig name (credentials (sys_env s)))
              end, s')).
Proof.
  destruct (sys_env s !! "DB_SKIP_TLS") as [v|] eqn:Hskip.
  { left. exists v. split; [done|]. by apply (dbConfFromEnv_skip s v). }
  right.
  destruct (sys_env s !! "DB_CA_CERT_PATH") as [ca|] eqn:Hca.
  2:{ left. split; [done|]. eexists _, _, _.
      rewrite (dbConfFromEnv_no_ca s) by done.
      split; [|split; [exact Hca|split; [|reflexivity]]].
      - unfold certPathErrors. rewrite !elem_of_cons. auto.
      - repeat constructor. }
  destruct (sys_env s !! "DB_CLIENT_CERT_PATH") as [cert|] eqn:Hcert.
  2:{ left. split; [done|]. eexists _, _, _.
      rewrite (dbConfFromEnv_no_cert s ca) by done.
      split; [|split; [exact Hcert|split; [|reflexivity]]].
      - unfold certPathErrors. rewrite !elem_of_cons. auto.
      - repeat constructor. }
  destruct (sys_env s !! "DB_CLIENT_KEY_PATH") as [key|] eqn:Hkey.
  2:{ left. split; [done|]. eexists _, _, _.
      rewrite (dbConfFromEnv_no_key s ca cert) by done.
      split; [|split; [exact Hkey|split; [|reflexivity]]].
      - unfold certPathErrors. rewrite !elem_of_cons. auto.
      - repeat constructor. }
  right. split; [done|]. exists ca, cert, key.
  repeat (split; [done|]). by apply dbConfFromEnv_tls_path.
Qed.

Lemma tlsConfig_ok_custom caCertPath clientCertPath clientKeyPath s key :
  (tlsConfig caCertPath clientCertPath clientKeyPath s).1 = Ok key ->
  key = "custom"
  ∧ is_Some (sys_tls (tlsConfig caCertPath clientCertPath clientKeyPath s).2
             !! "custom").
Proof.
  run_tlsConfig; intros Hok; try discriminate. simplify_eq.
  split; [done|]. rewrite lookup_insert_eq. by eexists.
Qed.

Lemma tlsConfig_registry caCertPath clientCertPath clientKeyPath s other :
  other ≠ "custom" ->
  sys_tls (tlsConfig caCertPath clientCertPath clientKeyPath s).2 !! other
  = sys_tls s !! other.
Proof. intros Hne. run_tlsConfig; try done. by rewrite lookup_insert_ne. Qed.

(** X9: connection parameters that [dbConfFromEnv] returns have the
    credentials of the environment (defaults where unset).  With the
    opt-out set they name no TLS profile and the registry is untouched;
    with the opt-out unset they name the profile [custom], and that
    profile is registered. *)
Theorem dbConfFromEnv_success_shape s dconf :
  (dbConfFromEnv s).1 = Ok dconf ->
  dconf = mysql.set_TLSConfig (mysql.TLSConfig dconf) (credentials (sys_env s))
  ∧ (is_Some (sys_env s !! "DB_SKIP_TLS") ->
     mysql.TLSConfig dconf = ""
     ∧ sys_tls (dbConfFromEnv s).2 = sys_tls s)
  ∧ (sys_env s !! "DB_SKIP_TLS" = None ->
     mysql.TLSConfig dconf = "custom"
     ∧ is_Some (sys_tls (dbConfFromEnv s).2 !! "custom")).
Proof.
  destruct (dbConfFromEnv_cases s)
    as [(v & Hskip & ->)|[(Hskip & name & e & calls & _ & _ & _ & ->)
       |(Hskip & ca & cert & key & _ & _ & _ & ->)]]; intros Hok.
  - simpl in *. simplify_eq. split; [done|]. split; [done|].
    by rewrite Hskip.
  - discriminate.
  - pose proof (tlsConfig_ok_custom ca cert key
                  (sys_calls (credential_lookups ++ certPath_lookups) s))
      as Hcustom.
    destruct (tlsConfig _ _ _ _) as [[name|e] s'];
      simpl in *; [|discriminate]. simplify_eq.
    destruct (Hcustom _ eq_refl) as [-> Hreg].
    split; [done|]. split; [|done]. rewrite Hskip. by intros [??].
Qed.

(** X10: [dbConfFromEnv] never changes the environment or the files;
    in the registry it changes at most the entry [custom]; and the only
    calls it makes are environment lookups, file reads and the
    registration. *)
Theorem dbConfFromEnv_stays_within_configuration s :
  let s' := (dbConfFromEnv s).2 in
  sys_env s' = sys_env s
  ∧ sys_files s' = sys_files s
  ∧ (∀ other, other ≠ "custom" -> sys_tls s' !! other = sys_tls s !! other)
  ∧ ∃ calls, sys_trace s' = sys_trace s ++ calls
             ∧ Forall (fun c => isConfigCall c = true) calls.
Proof.
  destruct (dbConfFromEnv_cases s)
    as [(v & Hskip & ->)|[(Hskip & name & e & calls & _ & _ & Hcalls & ->)
       |(Hskip & ca & cert & key & _ & _ & _ & ->)]].
  - simpl. repeat (split; [done|]). eexists. split; [reflexivity|].
    repeat constructor.
  - simpl. repeat (split; [done|]). by exists calls.
  - pose proof (tlsConfig_config_calls ca cert key
                  (sys_calls (credential_lookups ++ certPath_lookups) s))
      as (Henv & Hfiles & calls & Htrace & Hcalls).
    pose proof (tlsConfig_registry ca cert key
                  (sys_calls (credential_lookups ++ certPath_lookups) s))
      as Hreg.
    destruct (tlsConfig _ _ _ _) as [r s']; simpl in *.
    split; [done|]. split; [done|]. split; [done|].
    eexists. rewrite Htrace, <- app_assoc. split; [reflexivity|].
    apply Forall_app. split; [repeat constructor|done].
Qed.


(** ** Opening the store: [newDB] *)

(** A failed [newDB] has made the open and at most the ping. *)
Lemma newDB_error_calls dconf s e :
  (newDB dconf s).1 = Err e ->
  ∃ calls, (newDB dconf s).2 = sys_calls calls s
           ∧ calls `prefix_of`
               [SysOpen "mysql" (mysql.FormatDSN dconf); SysPing].
Proof.
  unfold newDB, sys_emit, bind, ret. simpl.
  destruct (mysql.Open "mysql" (mysql.FormatDSN dconf)) as [err|]; simpl.
  { intros _. eexists. split; [reflexivity|].
    apply prefix_cons, prefix_nil. }
  destruct (mysql.Ping (mysql.FormatDSN dconf)) as [err|]; simpl;
    [|discriminate].
  intros _. eexists. rewrite sys_calls_calls. split; [reflexivity|]. done.
Qed.

(** X11: every error of [newDB] names the stage that failed.  Either
    [sql.Open] rejected the DSN of the connection parameters, the error
    reads [newDB Open: ...] and no ping was attempted; or the open went
    through, the ping failed and the error reads [newDB Ping: ...]. *)
Theorem newDB_error_names_its_stage dconf s e :
  (newDB dconf s).1 = Err e ->
  let dsn := mysql.FormatDSN dconf in
  (∃ err, mysql.Open "mysql" dsn = Some err
          ∧ e = errors_New ("newDB Open: " +:+ Error err)
          ∧ (newDB dconf s).2 = sys_calls [SysOpen "mysql" dsn] s)
  ∨ (mysql.Open "mysql" dsn = None
     ∧ ∃ err, mysql.Ping dsn = Some err
              ∧ e = errors_New ("newDB Ping: " +:+ Error err)
              ∧ (newDB dconf s).2
                = sys_calls [SysOpen "mysql" dsn; SysPing] s).
Proof.
  unfold newDB, sys_emit, bind, ret. simpl.
  destruct (mysql.Open "mysql" (mysql.FormatDSN dconf)) as [err|] eqn:Hopen;
    simpl.
  { intros Herr. simplify_eq. left. by exists err. }
  destruct (mysql.Ping (mysql.FormatDSN dconf)) as [err|] eqn:Hping; simpl.
  { intros Herr. simplify_eq. right. split; [done|]. exists err.
    by rewrite sys_calls_calls. }
  discriminate.
Qed.

(** X12: [newDB] returns a handle exactly when both the open and the
    ping succeed; the handle is for the DSN of the connection
    parameters, and the ping has been made. *)
Theorem newDB_succeeds_iff_open_and_ping dconf s h :
  let dsn := mysql.FormatDSN dconf in
  (newDB dconf s).1 = Ok h
  ↔ h = dsn ∧ mysql.Open "mysql" dsn = None ∧ mysql.Ping dsn = None
    ∧ (newDB dconf s).2 = sys_calls [SysOpen "mysql" dsn; SysPing] s.
Proof.
  unfold newDB, sys_emit, bind, ret. simpl.
  destruct (mysql.Open "mysql" (mysql.FormatDSN dconf)) as [err|] eqn:Hopen;
    simpl.
  { split; [discriminate|]. by intros (_ & ? & _). }
  destruct (mysql.Ping (mysql.FormatDSN dconf)) as [err|] eqn:Hping; simpl.
  { split; [discriminate|]. by intros (_ & _ & ? & _). }
  rewrite sys_calls_calls. split.
  - intros Hok. by simplify_eq.
  - by intros (-> & _).
Qed.

(** ** The whole startup: [main] *)

#[local] Arguments dbConfFromEnv : simpl never.
#[local] Arguments newDB : simpl never.

(** [main], by the outcome of its two steps. *)
Lemma main_steps s :
  main s
  = let (conf, s1) := dbConfFromEnv (before_dbConf s) in
    match conf with
    | Err err => (Exited 1, sys_calls [SysLog (Error err); SysExit 1] s1)
    | Ok dconf =>
        let (d, s2) := newDB dconf s1 in
        match d with
        | Err err => (Exited 1, sys_calls [SysLog (Error err); SysExit 1] s2)
        | Ok _ =>
            let addr := listenAddr (sys_env s) in
            (Serving addr,
             sys_calls [SysHandleFunc "/"; SysLog ("listening on " +:+ addr);
                        SysListen addr] s2)
        end
    end.
Proof.
  unfold main, bind at 1 2 3.
  unfold sys_log, os_LookupEnv, sys_emit, bind at 1.
  rewrite sys_calls_calls. change ([SysLog "starting"] ++ _)
    with [SysLog "starting"; SysLookupEnv "REQLOGD_ADDR"].
  fold (before_dbConf s).
  destruct (dbConfFromEnv (before_dbConf s)) as [[dconf|err] s1].
  2:{ unfold log_Fatal, sys_log, sys_emit, bind, ret.
      by rewrite !sys_calls_calls. }
  unfold bind at 1. destruct (newDB dconf s1) as [[d|err] s2].
  2:{ unfold log_Fatal, sys_log, sys_emit, bind, ret.
      by rewrite !sys_calls_calls. }
  unfold sys_log, sys_emit, bind, ret. by rewrite !sys_calls_calls.
Qed.

(** X13: when configuration resolution succeeds and the store answers
    the ping, [main] opens the store on the DSN of the resolved
    parameters, pings it, registers the handler on the catch-all route,
    and then listens, on the address of [REQLOGD_ADDR] if that is set and
    on [:8080] otherwise. *)
Theorem main_serves_on_configured_address s dconf s1 :
  dbConfFromEnv (before_dbConf s) = (Ok dconf, s1) ->
  mysql.Open "mysql" (mysql.FormatDSN dconf) = None ->
  mysql.Ping (mysql.FormatDSN dconf) = None ->
  let addr := default ":8080" (sys_env s !! "REQLOGD_ADDR") in
  main s
  = (Serving addr,
     sys_calls [SysOpen "mysql" (mysql.FormatDSN dconf); SysPing;
                SysHandleFunc "/"; SysLog ("listening on " +:+ addr);
                SysListen addr] s1).
Proof.
  intros Hconf Hopen Hping. rewrite main_steps, Hconf.
  unfold newDB, sys_emit, bind, ret. rewrite Hopen, Hping.
  by rewrite !sys_calls_calls.
Qed.

(** X14: when configuration resolution succeeds but the store cannot be
    opened or does not answer the ping, [main] logs the error of [newDB]
    and exits with status 1; it registers no handler and does not
    listen. *)
Theorem main_unreachable_store_is_fatal s dconf s1 e :
  dbConfFromEnv (before_dbConf s) = (Ok dconf, s1) ->
  (newDB dconf s1).1 = Err e ->
  (main s).1 = Exited 1
  ∧ ∃ calls,
      (main s).2 = sys_calls (calls ++ [SysLog (Error e); SysExit 1]) s1
      ∧ calls `prefix_of` [SysOpen "mysql" (mysql.FormatDSN dconf); SysPing].
Proof.
  intros Hconf Herr. rewrite main_steps, Hconf.
  destruct (newDB_error_calls dconf s1 e Herr)
    as [calls [Hs2 Hpre]].
  destruct (newDB dconf s1) as [[d|err] s2]; simpl in *; [discriminate|].
  simplify_eq. split; [done|]. exists calls.
  by rewrite sys_calls_calls.
Qed.





End StartupFacts.

(** * Rendering: URLs, header maps, JSON *)

Section RenderingFacts.

Context `{url.Escaping} `{json.StringCodec}.

#[local] Arguments String.append !_ _ / : simpl nomatch.

Lemma append_assoc (a b c : string) : (a +:+ b) +:+ c = a +:+ b +:+ c.
Proof. induction a as [|x a IH]; simpl; [done|]. by f_equal. Qed.

(** A URL with a scheme renders as the scheme, a colon, and the rest. *)
Lemma URL_String_scheme u c sch :
  url.Scheme u = String c sch ->
  ∃ rest, url.URL_String u = url.Scheme u +:+ ":" +:+ rest.
Proof.
  intros Hs. unfold url.URL_String. rewrite Hs. simpl.
  repeat case_match; simpl; rewrite ?append_assoc;
    eexists; reflexivity.
Qed.

Lemma getScheme_http u :
  url.getScheme (url.URL_String (url.set_Scheme "http" u)) = "http".
Proof.
  destruct (URL_String_scheme (url.set_Scheme "http" u) "h" "ttp" eq_refl)
    as [rest ->].
  reflexivity.
Qed.

Lemma getScheme_https u :
  url.getScheme (url.URL_String (url.set_Scheme "https" u)) = "https".
Proof.
  destruct (URL_String_scheme (url.set_Scheme "https" u) "h" "ttps" eq_refl)
    as [rest ->].
  reflexivity.
Qed.

#[local] Instance key_le_trans : Transitive fmt.key_le.
Proof. intros a b c. unfold fmt.key_le. apply transitivity. Qed.

#[local] Instance key_le_total : Total fmt.key_le.
Proof. intros a b. unfold fmt.key_le. apply total, _. Qed.

(** In a list without repeated keys, a key has one entry. *)
Lemma unique_entry (m : list (string * list string)) a b :
  NoDup m.*1 -> a ∈ m -> b ∈ m -> a.1 = b.1 -> a = b.
Proof.
  intros Hnd Ha Hb Hk. destruct a as [k v], b as [k' v']; simpl in *.
  subst k'. f_equal.
  apply (elem_of_list_to_map (M := gmap string) m k v Hnd) in Ha.
  apply (elem_of_list_to_map (M := gmap string) m k v' Hnd) in Hb.
  congruence.
Qed.

(** The order in which the entries of a map come does not show in its
    rendering. *)
Lemma Sprint_Permutation m1 m2 :
  NoDup m1.*1 -> m1 ≡ₚ m2 -> fmt.Sprint m1 = fmt.Sprint m2.
Proof.
  intros Hnd Hperm. unfold fmt.Sprint.
  enough (merge_sort fmt.key_le m1 = merge_sort fmt.key_le m2) as ->
    by done.
  apply (Sorted_unique_strong fmt.key_le).
  - intros a b Ha Hb Hab Hba.
    rewrite merge_sort_Permutation in Ha, Hb. rewrite <- Hperm in Hb.
    apply (unique_entry m1); [done..|].
    unfold fmt.key_le in *. by apply (anti_symm String.le).
  - apply Sorted_merge_sort, _.
  - apply Sorted_merge_sort, _.
  - by rewrite !merge_sort_Permutation.
Qed.

(** A struct whose only field is unexported has nothing to show. *)
Lemma Marshal_unexported msg : json.Marshal [("msg", msg)] = "{}".
Proof. reflexivity. Qed.

Lemma append_nil_r (a : string) : a +:+ "" = a.
Proof. induction a as [|x a IH]; simpl; [done|]. by f_equal. Qed.

Lemma length_append (a b : string) :
  String.length (a +:+ b) = (String.length a + String.length b)%nat.
Proof. induction a as [|x a IH]; simpl; [done|]. by rewrite IH. Qed.

(** Draining a body that delivers its chunks and then the end of the
    stream returns all the bytes and no error. *)
Lemma ReadAll_cleanReader chunks rest :
  io.ReadAll (cleanReader chunks rest) = (foldr String.append rest chunks, None).
Proof.
  unfold cleanReader. induction chunks as [|c chunks IH]; csimpl; [done|].
  by rewrite IH.
Qed.

Lemma length_foldr_append chunks rest :
  String.length (foldr String.append rest chunks)
  = (totalLength chunks + String.length rest)%nat.
Proof.
  unfold totalLength. induction chunks as [|c chunks IH]; csimpl; [done|].
  rewrite length_append, IH. lia.
Qed.

(** The rendering of a URL in origin form under a scheme and a host:
    scheme, [://], host, path, query. *)
Lemma URL_String_origin_form u :
  url.nonempty (url.Scheme u) = true ->
  url.Opaque u = "" ->
  url.User u = None ->
  url.nonempty (url.Host u) = true ->
  url.relative (url.EscapedPath u) = false ->
  url.Fragment u = "" ->
  url.URL_String u
  = url.Scheme u +:+ "://" +:+ url.escapeHost (url.Host u)
    +:+ url.EscapedPath u +:+ queryPart u.
Proof.
  intros Hscheme Hopaque Huser Hhost Hpath Hfragment.
  unfold url.URL_String, queryPart.
  rewrite Hopaque, Huser, Hhost, Hpath, Hfragment.
  destruct (url.Scheme u) as [|c sch]; [done|]. simpl.
  rewrite !andb_false_r. simpl.
  destruct (url.ForceQuery u || url.nonempty (url.RawQuery u)); simpl;
    rewrite ?append_assoc, ?append_nil_r; done.
Qed.

End RenderingFacts.

(** * The handler *)

Section HandlerFacts.

Context {D : Type} `{url.Escaping} `{json.StringCodec}.

Implicit Types (s : server D) (r : http.Request).

#[local] Arguments url.URL_String : simpl never.
#[local] Arguments fmt.Sprint : simpl never.
#[local] Arguments json.Marshal : simpl never.
#[local] Arguments insertQuery : simpl never.

Ltac unfold_handler :=
  unfold emitted, serve, serveReqLog, s_now, ioutil_ReadAll,
         s_db_ExecContext, jsonError, json_Encode, w_Write, w_WriteHeader,
         log_Printf, emit, bind, ret, http.finishRequest, http.Write,
         http.WriteHeader, http.newResponseWriter in *;
  simpl in *.

Ltac split_handler :=
  repeat match goal with
    | c : option error |- _ => destruct c; simpl in *
    end;
  repeat match goal with
    | |- context [http.Body ?r] =>
        destruct (http.Body r) as [?|] eqn:?; simpl in *
    | |- context [io.ReadAll ?rd] =>
        destruct (io.ReadAll rd) as [? [?|]] eqn:?; simpl in *
    | |- context [ExecContext ?i ?c ?q ?a ?d] =>
        destruct (ExecContext i c q a d) as [[? [?|]] ?] eqn:?; simpl in *
    end;
  rewrite <- ?app_assoc in *; simpl in *;
  rewrite ?drop_app_length in *; simpl in *.

Ltac run_handler := unfold_handler; split_handler.

(** C7: when the insert of a request succeeds, the response has status
    200 and an empty body. *)
Theorem insert_success_answers_200_empty s r connErr store history :
  insertError (emitted s r connErr store history) = Some None ->
  http.status (w_resp (serve s r connErr store history)) = 200
  ∧ http.body (w_resp (serve s r connErr store history)) = "".
Proof. unfold insertError. intros Hins. run_handler; by simplify_eq. Qed.

(** C1, as the code has it: when the insert of a request fails, the
    handler writes the JSON body first, which commits status 200; its
    later [WriteHeader(500)] is made but changes nothing, so the
    response has status 200, not 500. *)
Theorem insert_failure_answers_200 s r connErr store history e :
  insertError (emitted s r connErr store history) = Some (Some e) ->
  http.status (w_resp (serve s r connErr store history)) = 200
  ∧ http.status (w_resp (serve s r connErr store history)) ≠ 500
  ∧ last (emitted s r connErr store history) = Some (EvWriteHeader 500).
Proof. unfold insertError. intros Hins. run_handler; by simplify_eq. Qed.

(** C9: when the insert of a request fails, the value encoded for the
    error body has the message in a field that is not exported, so its
    encoding is the empty object whatever the message; the handler
    writes that encoding and a newline, and on a live connection this
    is the whole response body. *)
Theorem insert_failure_body_is_empty_object
    s r connErr store history e :
  insertError (emitted s r connErr store history) = Some (Some e) ->
  json.Marshal [("msg", "internal error: " +:+ Error e)] = "{}"
  ∧ EvWrite ("{}" +:+ String "010" "") connErr
    ∈ emitted s r connErr store history
  ∧ (connErr = None ->
     http.body (w_resp (serve s r connErr store history))
     = "{}" +:+ String "010" "").
Proof.
  unfold insertError. intros Hins. split; [apply Marshal_unexported|].
  run_handler; simplify_eq; rewrite ?Marshal_unexported;
    (split; [set_solver|done]).
Qed.

(** C2, as the code has it: when draining the body of a request fails,
    the failure is logged, the recorded body length is the number of
    bytes read before the failure, and the insert is still made. *)
Theorem body_read_failure_records_bytes_read
    s r connErr store history rd b e :
  http.Body r = Some rd ->
  io.ReadAll rd = (b, Some e) ->
  (∃ args err, insertOutcome (emitted s r connErr store history)
               = Some (args, err))
  ∧ recordedArg 5 (emitted s r connErr store history)
    = Some (VInt (Z.of_nat (String.length b)))
  ∧ EvLog ("serveReqLog: got error reading request body: " +:+ Error e)
    ∈ emitted s r connErr store history.
Proof.
  intros Hbody Hread. unfold recordedArg.
  unfold_handler. rewrite Hbody. simpl. rewrite Hread. simpl.
  split_handler; (split; [eauto|]); (split; [done|]); set_solver.
Qed.

(** C4: the url recorded for a request has scheme https exactly when
    the request came in over TLS, and scheme http otherwise. *)
Theorem recorded_url_scheme s r connErr store history :
  ∃ u, recordedArg 1 (emitted s r connErr store history)
       = Some (VString u)
       ∧ (url.getScheme u = "https" ↔ is_Some (http.TLS r))
       ∧ (http.TLS r = None -> url.getScheme u = "http").
Proof.
  unfold recordedArg.
  run_handler; destruct (http.TLS r) as [cs|];
    (eexists; split; [reflexivity|]);
    rewrite ?getScheme_https, ?getScheme_http;
    (split; [split|]); try done; eauto; by intros [??].
Qed.

(** C6: the first thing the handler does is read the injected clock,
    in the world as it is when the request arrives, and the receive
    time it records is that reading normalized to UTC: the same
    instant, presented in UTC. *)
Theorem receivedAt_is_first_action s r connErr store history :
  ∃ rest t,
    emitted s r connErr store history = EvNow (now s history) :: rest
    ∧ recordedArg 0 (emitted s r connErr store history) = Some (VTime t)
    ∧ t = time.Time_UTC (now s history)
    ∧ time.location t = time.UTC
    ∧ time.unixNano t = time.unixNano (now s history).
Proof.
  unfold recordedArg. run_handler; eexists _, _; done.
Qed.

(** The headers text of a request is [fmt.Sprint] of its header map. *)
Lemma recorded_headers s r connErr store history :
  recordedArg 4 (emitted s r connErr store history)
  = Some (VString (fmt.Sprint (http.Header r))).
Proof. unfold recordedArg. run_handler; done. Qed.

(** ** More on the handler *)

(** The url of a request is the rendering of its [handlerURL]. *)
Lemma recorded_url s r connErr store history :
  recordedArg 1 (emitted s r connErr store history)
  = Some (VString (url.URL_String (handlerURL r))).
Proof.
  unfold recordedArg, handlerURL. run_handler; by destruct (http.TLS r).
Qed.

Lemma recorded_length s r connErr store history :
  recordedArg 5 (emitted s r connErr store history)
  = Some (VInt (drainedLength r)).
Proof.
  unfold recordedArg, drainedLength. unfold_handler.
  destruct (http.Body r) as [body|]; simpl;
    [destruct (io.ReadAll body) as [b [e|]]; simpl|];
    split_handler; done.
Qed.

(** X16: every request makes exactly one call on the store, whatever
    happens before or after it: the insert statement, with the context
    of the request and seven arguments; the store after the request is
    the one that call returned. *)
Theorem one_insert_per_request s r connErr store history :
  ∃ args res,
    filter (fun e => isExec e) (emitted s r connErr store history)
    = [EvExec (http.Context r) insertQuery args res.2]
    ∧ List.length args = 7%nat
    ∧ ExecContext (db s) (http.Context r) insertQuery args store
      = (res, w_store (serve s r connErr store history)).
Proof.
  run_handler;
    match goal with
    | Hexec : ExecContext _ _ _ ?args _ = (?res, _) |- _ =>
        exists args, res; rewrite Hexec; done
    end.
Qed.

(** X17: the method, the remote address and the protocol of the record
    are those of the request, unchanged. *)
Theorem method_remote_protocol_verbatim s r connErr store history :
  recordedArg 2 (emitted s r connErr store history)
  = Some (VString (http.Method r))
  ∧ recordedArg 3 (emitted s r connErr store history)
    = Some (VString (http.RemoteAddr r))
  ∧ recordedArg 6 (emitted s r connErr store history)
    = Some (VString (http.Proto r)).
Proof. unfold recordedArg. run_handler; done. Qed.

(** X18: for a body that arrives in any number of reads and ends
    cleanly, the recorded body length is the total number of bytes
    delivered, and no read failure is logged. *)
Theorem clean_body_length_is_byte_count
    s r connErr store history chunks rest :
  http.Body r = Some (cleanReader chunks rest) ->
  recordedArg 5 (emitted s r connErr store history)
  = Some (VInt (Z.of_nat (totalLength chunks + String.length rest)))
  ∧ ∀ e, EvLog ("serveReqLog: got error reading request body: "
                +:+ Error e)
         ∉ emitted s r connErr store history.
Proof.
  intros Hbody. split.
  { rewrite recorded_length. unfold drainedLength.
    rewrite Hbody, ReadAll_cleanReader. simpl.
    by rewrite length_foldr_append. }
  intros e. unfold_handler. rewrite Hbody. simpl.
  rewrite ReadAll_cleanReader. simpl.
  split_handler; rewrite !elem_of_cons, elem_of_nil;
    intros Hin; repeat (destruct Hin as [Hin|Hin]; try discriminate);
    try done.
  all: injection Hin as Hin; apply (inj (String.append _)) in Hin;
    discriminate.
Qed.

(** X19: a request without body is recorded with body length 0, and
    nothing is read. *)
Theorem no_body_length_is_zero s r connErr store history :
  http.Body r = None ->
  recordedArg 5 (emitted s r connErr store history) = Some (VInt 0)
  ∧ Forall (fun e => isReadAll e = false)
           (emitted s r connErr store history).
Proof.
  intros Hbody. unfold recordedArg. unfold_handler. rewrite Hbody. simpl.
  split_handler; (split; [done|]); repeat constructor.
Qed.

(** X20: the recorded url takes its host from the Host header and its
    scheme from the presence of TLS alone: two requests with the same
    Host header, both over TLS or both not, whose URLs agree outside
    their own scheme and host, are recorded with the same url. *)
Theorem url_host_and_scheme_from_request
    s1 s2 r1 r2 connErr1 connErr2 store1 store2 history1 history2 :
  http.Host r1 = http.Host r2 ->
  (is_Some (http.TLS r1) ↔ is_Some (http.TLS r2)) ->
  requestTarget (http.URL r1) = requestTarget (http.URL r2) ->
  recordedArg 1 (emitted s1 r1 connErr1 store1 history1)
  = recordedArg 1 (emitted s2 r2 connErr2 store2 history2).
Proof.
  intros Hhost Htls Htarget. rewrite !recorded_url. do 2 f_equal.
  unfold handlerURL. rewrite Hhost.
  assert (Hscheme : match http.TLS r1 with
                    | Some _ => "https" | None => "http" end
                    = match http.TLS r2 with
                      | Some _ => "https" | None => "http" end).
  { destruct (http.TLS r1), (http.TLS r2); try done.
    - by destruct (proj1 Htls ltac:(eauto)).
    - by destruct (proj2 Htls ltac:(eauto)). }
  rewrite Hscheme.
  destruct (http.URL r1), (http.URL r2).
  unfold requestTarget, url.set_Scheme, url.set_Host in *; simpl in *.
  injection Htarget; intros; by subst.
Qed.

(** X21: for a request in origin form (no opaque part, no user
    information, no fragment, a path that is empty or starts with a
    slash) with a Host header, the recorded url is the scheme, [://],
    the host, the path and, when there is one, [?] and the query. *)
Theorem url_of_origin_form_request s r connErr store history :
  url.Opaque (http.URL r) = "" ->
  url.User (http.URL r) = None ->
  url.Fragment (http.URL r) = "" ->
  url.nonempty (http.Host r) = true ->
  url.relative (url.EscapedPath (handlerURL r)) = false ->
  recordedArg 1 (emitted s r connErr store history)
  = Some (VString
            (match http.TLS r with Some _ => "https" | None => "http" end
             +:+ "://" +:+ url.escapeHost (http.Host r)
             +:+ url.EscapedPath (handlerURL r)
             +:+ queryPart (http.URL r))).
Proof.
  intros Hopaque Huser Hfragment Hhost Hpath.
  rewrite recorded_url, URL_String_origin_form; try done.
  unfold handlerURL. simpl. by destruct (http.TLS r).
Qed.

(** X22: when the insert succeeds the handler makes no call on the
    response writer at all: the status 200 is the server's default. *)
Theorem success_leaves_response_untouched s r connErr store history :
  insertError (emitted s r connErr store history) = Some None ->
  Forall (fun e => isResponseCall e = false)
         (emitted s r connErr store history).
Proof.
  unfold insertError. intros Hins.
  run_handler; simplify_eq; repeat constructor.
Qed.

(** X23: when the insert fails the error of the store is logged, on the
    server side, right after the call that returned it. *)
Theorem insert_failure_is_logged s r connErr store history e :
  insertError (emitted s r connErr store history) = Some (Some e) ->
  ∃ pre args post,
    emitted s r connErr store history
    = pre ++ [EvExec (http.Context r) insertQuery args (Some e);
              EvLog ("serveReqLog: got error writing to DB: " +:+ Error e)]
          ++ post.
Proof.
  unfold insertError. intros Hins.
  run_handler; simplify_eq;
    first [ by eexists [_], _, _
          | by eexists [_; _], _, _
          | by eexists [_; _; _], _, _ ].
Qed.

(** X24: when the insert fails and the connection to the caller is
    gone, the failed write of the error body is logged and not
    propagated; the handler still goes on to [WriteHeader(500)], and the
    caller gets no body. *)
Theorem insert_failure_on_broken_connection s r store history e ce :
  insertError (emitted s r (Some ce) store history) = Some (Some e) ->
  (∃ pre,
     emitted s r (Some ce) store history
     = pre ++ [EvWrite ("{}" +:+ String "010" "") (Some ce);
               EvLog ("jsonError: got error writing to client: "
                      +:+ Error ce);
               EvWriteHeader 500])
  ∧ http.body (w_resp (serve s r (Some ce) store history)) = "".
Proof.
  unfold insertError. intros Hins.
  run_handler; simplify_eq; rewrite ?Marshal_unexported;
    (split; [|done]);
    first [ by eexists [_; _; _]
          | by eexists [_; _; _; _]
          | by eexists [_; _; _; _; _] ].
Qed.

(** X25: [jsonError] does not put the code it is given on the response:
    after it the status is 200, or the one committed before the call,
    whatever the code and the message; it leaves the store alone. *)
Theorem jsonError_ignores_its_code msg code (w : World D) :
  let w' := (jsonError msg code w).2 in
  http.wroteHeader (w_resp w') = true
  ∧ http.status (w_resp w')
    = (if http.wroteHeader (w_resp w) then http.status (w_resp w) else 200)
  ∧ w_store w' = w_store w.
Proof.
  unfold_handler.
  destruct (http.wroteHeader (w_resp w)) eqn:Hwrote; simpl;
    destruct (http.connErr (w_resp w)) eqn:Hconn; simpl;
    rewrite ?Hwrote; done.
Qed.

(** X26: the production store [db] is transparent: a server on the
    wrapper gives the caller the same response and makes the same calls
    as a server on the handle it wraps, and the handle inside the
    wrapper ends up as the bare handle does. *)
Theorem db_wrapper_is_transparent s r connErr store history :
  let wrapped := {| db := db_ExecContext (db s); now := now s |} in
  let w := serve s r connErr store history in
  let w' := serve wrapped r connErr {| db_db := store |} history in
  w_resp w' = w_resp w
  ∧ w_trace w' = w_trace w
  ∧ db_db (w_store w') = w_store w.
Proof.
  unfold_handler. unfold db_ExecContext. simpl.
  destruct (http.Body r) as [body|]; simpl;
    [destruct (io.ReadAll body) as [b [e|]]; simpl|];
    match goal with
    | |- context [ExecContext (db s) ?c ?q ?a ?d] =>
        destruct (ExecContext (db s) c q a d) as [[? [?|]] ?]; simpl
    end;
    destruct connErr; simpl; done.
Qed.

(** The store and the response after a request, by the one call on the
    store. *)
Lemma serve_by_insert s r connErr store history :
  let res := ExecContext (db s) (http.Context r) insertQuery
               (capturedArgs s r history) store in
  w_store (serve s r connErr store history) = res.2
  ∧ (res.1.2 = None ->
     w_resp (serve s r connErr store history)
     = http.finishRequest (http.newResponseWriter connErr)).
Proof.
  unfold capturedArgs, drainedLength, handlerURL. unfold_handler.
  unfold url.set_Scheme. simpl.
  destruct (http.TLS r); simpl;
    (destruct (http.Body r) as [body|]; simpl;
     [destruct (io.ReadAll body) as [b [e|]]; simpl|]);
    match goal with
    | |- context [ExecContext (db s) ?c ?q ?a ?d] =>
        destruct (ExecContext (db s) c q a d) as [[? [?|]] ?]; simpl
    end;
    destruct connErr; simpl; done.
Qed.

End HandlerFacts.

(** C3: the headers text recorded for a request is determined by the
    header map of the request: two requests with equal header maps get
    equal headers texts, whatever the order in which the runtime iterates
    the maps, the rest of the requests, the clocks, the stores and the
    histories. *)
Theorem headers_rendering_deterministic
    {D1 D2 : Type} `{url.Escaping} `{json.StringCodec}
    (s1 : server D1) (s2 : server D2) r1 r2 connErr1 connErr2
    store1 store2 history1 history2 :
  NoDup (http.Header r1).*1 ->
  NoDup (http.Header r2).*1 ->
  headerMap r1 = headerMap r2 ->
  ∃ h, recordedArg 4 (emitted s1 r1 connErr1 store1 history1)
       = Some (VString h)
       ∧ recordedArg 4 (emitted s2 r2 connErr2 store2 history2)
         = Some (VString h).
Proof.
  intros Hnd1 Hnd2 Hmap. exists (fmt.Sprint (http.Header r1)).
  split; [apply recorded_headers|].
  rewrite (Sprint_Permutation (http.Header r1) (http.Header r2)).
  - apply recorded_headers.
  - done.
  - by apply (list_to_map_inj (M := gmap string)).
Qed.

(** * The handler on the test double *)

Section MockFacts.

Context `{url.Escaping} `{json.StringCodec}.

Implicit Types (s : server mock.mockDB) (r : http.Request).

(** What a request leaves on the test double. *)
Lemma mock_serve s r connErr rr0 history :
  db s = mock.mockDB_Execer ->
  w_store (serve s r connErr {| mock.rr := rr0 |} history)
  = {| mock.rr := rr0 ++ [capturedRecord s r history] |}
  ∧ w_resp (serve s r connErr {| mock.rr := rr0 |} history)
    = http.finishRequest (http.newResponseWriter connErr).
Proof.
  intros Hdb.
  destruct (serve_by_insert s r connErr {| mock.rr := rr0 |} history)
    as [Hstore Hresp].
  rewrite Hdb in Hstore, Hresp. simpl in Hstore, Hresp.
  split; [exact Hstore|]. by apply Hresp.
Qed.

(** X27: on the test double every request adds exactly one record, at
    the end, whose fields are the receive time in UTC, the reconstructed
    url, the method, the remote address, the rendered headers, the
    drained body length and the protocol of the request: the seven
    arguments of the handler always pass the type assertions of the
    double.  The response is 200 with an empty body. *)
Theorem mock_keeps_one_record_per_request s r connErr rr0 history :
  db s = mock.mockDB_Execer ->
  let w := serve s r connErr {| mock.rr := rr0 |} history in
  w_store w = {| mock.rr := rr0 ++ [capturedRecord s r history] |}
  ∧ http.status (w_resp w) = 200
  ∧ http.body (w_resp w) = "".
Proof.
  intros Hdb w. subst w.
  destruct (mock_serve s r connErr rr0 history Hdb) as [-> ->]. done.
Qed.

(** X28: two requests served one after the other leave two records,
    in the order served, even when the requests are identical: nothing
    is merged; the two records of a repeated request differ at most in
    their receive time, which for each is the reading of the clock on
    its own arrival. *)
Theorem mock_repeated_request_two_records s r connErr1 connErr2 rr0 history :
  db s = mock.mockDB_Execer ->
  let w1 := serve s r connErr1 {| mock.rr := rr0 |} history in
  let w2 := serve s r connErr2 (w_store w1) (w_trace w1) in
  ∃ rec1 rec2,
    mock.rr (w_store w2) = rr0 ++ [rec1; rec2]
    ∧ mock.rat rec1 = time.Time_UTC (now s history)
    ∧ mock.rat rec2 = time.Time_UTC (now s (w_trace w1))
    ∧ mock.url rec1 = mock.url rec2
    ∧ mock.method rec1 = mock.method rec2
    ∧ mock.remote rec1 = mock.remote rec2
    ∧ mock.headers rec1 = mock.headers rec2
    ∧ mock.length rec1 = mock.length rec2
    ∧ mock.protocol rec1 = mock.protocol rec2.
Proof.
  intros Hdb w1 w2. subst w2.
  destruct (mock_serve s r connErr1 rr0 history Hdb) as [Hstore1 _].
  fold w1 in Hstore1. rewrite Hstore1.
  destruct (mock_serve s r connErr2 (rr0 ++ [capturedRecord s r history])
              (w_trace w1) Hdb) as [-> _].
  exists (capturedRecord s r history), (capturedRecord s r (w_trace w1)).
  simpl. by rewrite <- app_assoc.
Qed.

End MockFacts.

(** * The scenarios of the specification, run *)

Section Scenarios.

#[local] Existing Instance plainEscaping.
#[local] Existing Instance plainCodec.
#[local] Existing Instance plainParsing.
#[local] Existing Instance reachableDriver.

(** Scenario 1: [GET /] over plaintext is recorded and answered 200. *)
Example scenario_get_root :
  let w := serve testServer getRoot None {| mock.rr := [] |} [] in
  mock.rr (w_store w)
  = [{| mock.rat := {| time.unixNano := 0; time.location := time.UTC |};
        mock.url := "http://127.0.0.1:8080/";
        mock.method := "GET";
        mock.remote := "127.0.0.1:49152";
        mock.headers :=
          "map[Accept-Encoding:[gzip] User-Agent:[Go-http-client/1.1]]";
        mock.length := 0;
        mock.protocol := "HTTP/1.1" |}]
  ∧ http.status (w_resp w) = 200.
Proof. split; reflexivity. Qed.

(** The same request over TLS is recorded with an https url. *)
Example scenario_get_root_tls :
  let r := {| http.Method := http.Method getRoot;
              http.URL := http.URL getRoot; http.Proto := http.Proto getRoot;
              http.Header := http.Header getRoot;
              http.Body := http.Body getRoot; http.Host := http.Host getRoot;
              http.RemoteAddr := http.RemoteAddr getRoot;
              http.TLS := Some {| tls.Version := 772;
                                  tls.ServerName := "reqlogd.test" |};
              http.Context := http.Context getRoot |} in
  recordedArg 1 (emitted testServer r None {| mock.rr := [] |} [])
  = Some (VString "https://127.0.0.1:8080/").
Proof. reflexivity. Qed.

(** Scenario 2, cut short: three bytes of the body arrive, the read then
    fails, and the request is recorded all the same, with receive time
    the reading of the clock on arrival (two events into the history)
    although four more events follow before the insert returns. *)
Example scenario_post_truncated :
  let history := [EvLog "earlier"; EvLog "requests"] in
  let w := serve testServer postTruncated None {| mock.rr := [] |} history in
  mock.rr (w_store w)
  = [{| mock.rat := {| time.unixNano := 2; time.location := time.UTC |};
        mock.url := "http://127.0.0.1:8080/anything";
        mock.method := "POST";
        mock.remote := "127.0.0.1:49152";
        mock.headers := "map[Content-Length:[5]]";
        mock.length := 3;
        mock.protocol := "HTTP/1.1" |}]
  ∧ List.length (w_trace w) = 6%nat.
Proof. split; reflexivity. Qed.

(** Scenario 5, with the client key path unset as well. *)
Example scenario_ca_path_unset :
  sys_trace (main sysCertOnly).2
  = [SysLog "starting"; SysLookupEnv "REQLOGD_ADDR"]
    ++ credential_lookups
    ++ [SysLookupEnv "DB_CA_CERT_PATH";
        SysLog "DB_CA_CERT_PATH is required and was not set"; SysExit 1].
Proof. reflexivity. Qed.

Lemma dbConfFromEnv_reports_earliest_missing_path_witness :
  sys_env sysCertOnly !! "DB_SKIP_TLS" = None
  ∧ firstMissing (sys_env sysCertOnly)
    = Some ("DB_CA_CERT_PATH", errCertPath)
  ∧ (dbConfFromEnv sysCertOnly).1 = Err errCertPath.
Proof.
  split; [reflexivity|]. split; [reflexivity|].
  apply (dbConfFromEnv_reports_earliest_missing_path
           sysCertOnly "DB_CA_CERT_PATH" errCertPath);
    reflexivity.
Defined.

Lemma missing_cert_path_is_fatal_before_listening_witness :
  sys_env sysCertOnly !! "DB_SKIP_TLS" = None
  ∧ sys_env sysCertOnly !! "DB_CLIENT_KEY_PATH" = None
  ∧ (∃ name e calls,
        (name, e) ∈ certPathErrors
        ∧ sys_env sysCertOnly !! name = None
        ∧ Error e = name +:+ " is required and was not set"
        ∧ (dbConfFromEnv sysCertOnly).1 = Err e
        ∧ main sysCertOnly = (Exited 1, sys_calls calls sysCertOnly)
        ∧ SysLog (Error e) ∈ calls
        ∧ last calls = Some (SysExit 1)
        ∧ Forall (fun c => isListen c = false) calls).
Proof.
  split; [reflexivity|]. split; [reflexivity|].
  apply (missing_cert_path_is_fatal_before_listening sysCertOnly);
    [reflexivity|]. right. right. reflexivity.
Defined.

Lemma tls_opt_out_skips_trust_profile_witness :
  is_Some (sys_env sysSkipTLS !! "DB_SKIP_TLS")
  ∧ ∃ dconf calls,
      dbConfFromEnv sysSkipTLS = (Ok dconf, sys_calls calls sysSkipTLS)
      ∧ dconf = credentials (sys_env sysSkipTLS)
      ∧ mysql.TLSConfig dconf = ""
      ∧ Forall (fun c => touchesTrustProfile c = false) calls
      ∧ sys_tls (dbConfFromEnv sysSkipTLS).2 = sys_tls sysSkipTLS.
Proof.
  split; [by exists "1"|].
  apply (tls_opt_out_skips_trust_profile sysSkipTLS). by exists "1".
Defined.

Lemma insert_success_answers_200_empty_witness :
  let w := serve testServer getRoot None {| mock.rr := [] |} [] in
  insertError (emitted testServer getRoot None {| mock.rr := [] |} [])
  = Some None
  ∧ http.status (w_resp w) = 200 ∧ http.body (w_resp w) = "".
Proof.
  split; [reflexivity|].
  apply (insert_success_answers_200_empty
           testServer getRoot None {| mock.rr := [] |} []).
  reflexivity.
Defined.

Lemma insert_failure_answers_200_witness :
  let store := {| failure := errors_New "connection refused" |} in
  insertError (emitted downServer getRoot None store [])
  = Some (Some (errors_New "connection refused"))
  ∧ http.status (w_resp (serve downServer getRoot None store [])) = 200.
Proof.
  split; [reflexivity|].
  apply (insert_failure_answers_200 downServer getRoot None
           {| failure := errors_New "connection refused" |} []
           (errors_New "connection refused")).
  reflexivity.
Defined.

Lemma insert_failure_body_is_empty_object_witness :
  let store := {| failure := errors_New "table is full" |} in
  insertError (emitted downServer postTruncated None store [])
  = Some (Some (errors_New "table is full"))
  ∧ EvWrite ("{}" +:+ String "010" "") None
    ∈ emitted downServer postTruncated None store [].
Proof.
  split; [reflexivity|].
  apply (insert_failure_body_is_empty_object downServer postTruncated None
           {| failure := errors_New "table is full" |} []
           (errors_New "table is full")).
  reflexivity.
Defined.

Lemma body_read_failure_records_bytes_read_witness :
  http.Body postTruncated
  = Some [("hel", None); ("", Some (errors_New "unexpected EOF"))]
  ∧ io.ReadAll [("hel", None); ("", Some (errors_New "unexpected EOF"))]
    = ("hel", Some (errors_New "unexpected EOF"))
  ∧ recordedArg 5 (emitted testServer postTruncated None
                     {| mock.rr := [] |} [])
    = Some (VInt 3).
Proof.
  split; [reflexivity|]. split; [reflexivity|].
  apply (body_read_failure_records_bytes_read testServer postTruncated None
           {| mock.rr := [] |} []
           [("hel", None); ("", Some (errors_New "unexpected EOF"))]
           "hel" (errors_New "unexpected EOF"));
    reflexivity.
Defined.

(** C2, as stated, fails: a body that delivers three bytes and then
    breaks is recorded with length 3, not 0. *)
Lemma body_read_failure_length_not_zero :
  ¬ (∀ (s : server mock.mockDB) (r : http.Request) rd b e,
       http.Body r = Some rd ->
       io.ReadAll rd = (b, Some e) ->
       b ≠ "" ->
       recordedArg 5 (emitted s r None {| mock.rr := [] |} [])
       = Some (VInt 0)).
Proof.
  intros Hclaim.
  specialize (Hclaim testServer postTruncated _ "hel"
                (errors_New "unexpected EOF") eq_refl eq_refl).
  discriminate Hclaim. discriminate.
Qed.

Lemma headers_rendering_deterministic_witness :
  NoDup (http.Header getRoot).*1
  ∧ NoDup (http.Header getRootReordered).*1
  ∧ headerMap getRoot = headerMap getRootReordered
  ∧ ∃ h, recordedArg 4 (emitted testServer getRoot None
                          {| mock.rr := [] |} [])
         = Some (VString h)
         ∧ recordedArg 4 (emitted downServer getRootReordered None
                            {| failure := errors_New "table is full" |}
                            [EvLog "earlier request"])
           = Some (VString h).
Proof.
  assert (Hnd1 : NoDup (http.Header getRoot).*1) by compute_done.
  assert (Hnd2 : NoDup (http.Header getRootReordered).*1) by compute_done.
  split; [exact Hnd1|]. split; [exact Hnd2|]. split; [reflexivity|].
  apply headers_rendering_deterministic; [exact Hnd1|exact Hnd2|].
  reflexivity.
Defined.

End Scenarios.

(** * More runs: startup with certificates, and the handler *)

Section StartupRuns.

#[local] Existing Instance strictParsing.
#[local] Existing Instance reachableDriver.

Ltac run := vm_compute; first [reflexivity | discriminate].

Lemma tlsConfig_failure_registers_nothing_witness :
  (tlsConfig "/certs/ca.pem" "/certs/client.pem" "/certs/client.key"
     sysEmptyKey).1
  = Err (errors_New "tls: failed to find any PEM data in key input")
  ∧ ∃ calls,
      (tlsConfig "/certs/ca.pem" "/certs/client.pem" "/certs/client.key"
         sysEmptyKey).2
      = sys_calls calls sysEmptyKey
      ∧ Forall (fun c => isRegister c = false) calls.
Proof.
  split; [run|].
  apply (tlsConfig_failure_registers_nothing
           "/certs/ca.pem" "/certs/client.pem" "/certs/client.key"
           sysEmptyKey
           (errors_New "tls: failed to find any PEM data in key input")).
  run.
Defined.

Lemma tlsConfig_registers_custom_witness :
  sys_files sysWithCerts !! "/certs/ca.pem" = Some "CA"
  ∧ tls.parseCertsPEM "CA" ≠ []
  ∧ (tlsConfig "/certs/ca.pem" "/certs/client.pem" "/certs/client.key"
       sysWithCerts).1
    = Ok "custom".
Proof.
  split; [run|]. split; [run|].
  rewrite (tlsConfig_registers_custom
             "/certs/ca.pem" "/certs/client.pem" "/certs/client.key"
             sysWithCerts "CA" "CERT" "KEY"
             {| tls.Chain := ["CERT"]; tls.PrivateKey := "KEY" |});
    [run|run|run|run..].
Defined.

Lemma tlsConfig_result_is_registered_witness :
  (tlsConfig "/certs/ca.pem" "/certs/client.pem" "/certs/client.key"
     sysWithCerts).1
  = Ok "custom"
  ∧ ∃ config,
      sys_tls (tlsConfig "/certs/ca.pem" "/certs/client.pem"
                 "/certs/client.key" sysWithCerts).2 !! "custom"
      = Some config
      ∧ tls.RootCAs config ≠ []
      ∧ List.length (tls.Certificates config) = 1%nat.
Proof.
  split; [run|].
  apply (tlsConfig_result_is_registered
           "/certs/ca.pem" "/certs/client.pem" "/certs/client.key"
           sysWithCerts "custom").
  run.
Defined.

Lemma tlsConfig_unreadable_ca_witness :
  (ioutil_ReadFile "/certs/ca.pem" sysWithoutFiles).1
  = Err (errors_New "open /certs/ca.pem: no such file or directory")
  ∧ tlsConfig "/certs/ca.pem" "/certs/client.pem" "/certs/client.key"
      sysWithoutFiles
    = (Err (errors_New "open /certs/ca.pem: no such file or directory"),
       sys_calls [SysReadFile "/certs/ca.pem"] sysWithoutFiles).
Proof.
  split; [run|].
  apply (tlsConfig_unreadable_ca
           "/certs/ca.pem" "/certs/client.pem" "/certs/client.key"
           sysWithoutFiles).
  run.
Defined.

Lemma tlsConfig_ca_without_certificate_witness :
  sys_files sysEmptyCA !! "/certs/ca.pem" = Some ""
  ∧ tls.parseCertsPEM "" = []
  ∧ tlsConfig "/certs/ca.pem" "/certs/client.pem" "/certs/client.key"
      sysEmptyCA
    = (Err errCertPEM, sys_calls [SysReadFile "/certs/ca.pem"] sysEmptyCA).
Proof.
  split; [run|]. split; [run|].
  apply (tlsConfig_ca_without_certificate
           "/certs/ca.pem" "/certs/client.pem" "/certs/client.key"
           sysEmptyCA ""); run.
Defined.

Lemma tlsConfig_key_pair_mismatch_witness :
  sys_files sysEmptyKey !! "/certs/client.key" = Some ""
  ∧ tls.X509KeyPair "CERT" ""
    = Err (errors_New "tls: failed to find any PEM data in key input")
  ∧ tlsConfig "/certs/ca.pem" "/certs/client.pem" "/certs/client.key"
      sysEmptyKey
    = (Err (errors_New "tls: failed to find any PEM data in key input"),
       sys_calls [SysReadFile "/certs/ca.pem";
                  SysReadFile "/certs/client.pem";
                  SysReadFile "/certs/client.key"] sysEmptyKey).
Proof.
  split; [run|]. split; [run|].
  apply (tlsConfig_key_pair_mismatch
           "/certs/ca.pem" "/certs/client.pem" "/certs/client.key"
           sysEmptyKey "CA" "CERT" "");
    [run|run|run..].
Defined.

Lemma dbConfFromEnv_hands_paths_to_tlsConfig_witness :
  sys_env sysWithCerts !! "DB_SKIP_TLS" = None
  ∧ sys_env sysWithCerts !! "DB_CA_CERT_PATH" = Some "/certs/ca.pem"
  ∧ (dbConfFromEnv sysWithCerts).2
    = (tlsConfig "/certs/ca.pem" "/certs/client.pem" "/certs/client.key"
         (sys_calls (credential_lookups ++ certPath_lookups) sysWithCerts)).2.
Proof.
  split; [run|]. split; [run|].
  apply (dbConfFromEnv_hands_paths_to_tlsConfig sysWithCerts
           "/certs/ca.pem" "/certs/client.pem" "/certs/client.key");
    run.
Defined.

Lemma dbConfFromEnv_success_shape_witness :
  (dbConfFromEnv sysWithCerts).1
  = Ok (mysql.set_TLSConfig "custom" (credentials certEnv))
  ∧ is_Some (sys_tls (dbConfFromEnv sysWithCerts).2 !! "custom").
Proof.
  split; [run|].
  apply (dbConfFromEnv_success_shape sysWithCerts
           (mysql.set_TLSConfig "custom" (credentials certEnv)));
    run.
Defined.

Lemma newDB_error_names_its_stage_witness :
  (@newDB unreachableDriver (credentials certEnv) sysWithCerts).1
  = Err (errors_New "newDB Ping: connection refused")
  ∧ ((∃ err, @mysql.Open unreachableDriver "mysql" "localhost:3306" = Some err
             ∧ errors_New "newDB Ping: connection refused"
               = errors_New ("newDB Open: " +:+ Error err)
             ∧ (@newDB unreachableDriver (credentials certEnv)
                  sysWithCerts).2
               = sys_calls [SysOpen "mysql" "localhost:3306"] sysWithCerts)
     ∨ (@mysql.Open unreachableDriver "mysql" "localhost:3306" = None
        ∧ ∃ err, @mysql.Ping unreachableDriver "localhost:3306" = Some err
                 ∧ errors_New "newDB Ping: connection refused"
                   = errors_New ("newDB Ping: " +:+ Error err)
                 ∧ (@newDB unreachableDriver (credentials certEnv)
                      sysWithCerts).2
                   = sys_calls [SysOpen "mysql" "localhost:3306"; SysPing]
                       sysWithCerts)).
Proof.
  split; [run|].
  apply (@newDB_error_names_its_stage unreachableDriver
           (credentials certEnv) sysWithCerts
           (errors_New "newDB Ping: connection refused")).
  run.
Defined.

Lemma main_serves_on_configured_address_witness :
  (dbConfFromEnv (before_dbConf sysWithCerts)).1
  = Ok (mysql.set_TLSConfig "custom" (credentials certEnv))
  ∧ (main sysWithCerts).1 = Serving ":9090".
Proof.
  split; [run|].
  rewrite (main_serves_on_configured_address sysWithCerts
             (mysql.set_TLSConfig "custom" (credentials certEnv))
             (dbConfFromEnv (before_dbConf sysWithCerts)).2);
    run.
Defined.

Lemma main_unreachable_store_is_fatal_witness :
  (@dbConfFromEnv strictParsing (before_dbConf sysWithCerts)).1
  = Ok (mysql.set_TLSConfig "custom" (credentials certEnv))
  ∧ (@main strictParsing unreachableDriver sysWithCerts).1 = Exited 1.
Proof.
  split; [run|].
  apply (@main_unreachable_store_is_fatal strictParsing unreachableDriver
           sysWithCerts
           (mysql.set_TLSConfig "custom" (credentials certEnv))
           (@dbConfFromEnv strictParsing (before_dbConf sysWithCerts)).2
           (errors_New "newDB Ping: connection refused"));
    run.
Defined.

End StartupRuns.

Section HandlerRuns.

#[local] Existing Instance plainEscaping.
#[local] Existing Instance plainCodec.

Ltac run := vm_compute; first [reflexivity | discriminate].

Lemma clean_body_length_is_byte_count_witness :
  http.Body postHello = Some (cleanReader ["he"; "llo"] "")
  ∧ recordedArg 5 (emitted testServer postHello None {| mock.rr := [] |} [])
    = Some (VInt 5).
Proof.
  split; [reflexivity|].
  apply (clean_body_length_is_byte_count testServer postHello None
           {| mock.rr := [] |} [] ["he"; "llo"] "").
  reflexivity.
Defined.

Lemma no_body_length_is_zero_witness :
  http.Body getRootNoBody = None
  ∧ recordedArg 5 (emitted testServer getRootNoBody None
                     {| mock.rr := [] |} [])
    = Some (VInt 0).
Proof.
  split; [reflexivity|].
  apply (no_body_length_is_zero testServer getRootNoBody None
           {| mock.rr := [] |} []).
  reflexivity.
Defined.

Lemma url_host_and_scheme_from_request_witness :
  http.Host getRoot = http.Host getRootAbsolute
  ∧ requestTarget (http.URL getRoot)
    = requestTarget (http.URL getRootAbsolute)
  ∧ recordedArg 1 (emitted testServer getRoot None {| mock.rr := [] |} [])
    = recordedArg 1 (emitted testServer getRootAbsolute None
                       {| mock.rr := [] |} []).
Proof.
  split; [reflexivity|]. split; [reflexivity|].
  apply (url_host_and_scheme_from_request testServer testServer
           getRoot getRootAbsolute None None
           {| mock.rr := [] |} {| mock.rr := [] |} [] []);
    [reflexivity| |reflexivity].
  split; intros [cs Hcs]; discriminate Hcs.
Defined.

Lemma url_of_origin_form_request_witness :
  url.nonempty (http.Host getRoot) = true
  ∧ url.relative (url.EscapedPath (handlerURL getRoot)) = false
  ∧ recordedArg 1 (emitted testServer getRoot None {| mock.rr := [] |} [])
    = Some (VString "http://127.0.0.1:8080/").
Proof.
  split; [reflexivity|]. split; [reflexivity|].
  rewrite (url_of_origin_form_request testServer getRoot None
             {| mock.rr := [] |} []) by reflexivity.
  reflexivity.
Defined.

Lemma success_leaves_response_untouched_witness :
  insertError (emitted testServer getRoot None {| mock.rr := [] |} [])
  = Some None
  ∧ Forall (fun e => isResponseCall e = false)
           (emitted testServer getRoot None {| mock.rr := [] |} []).
Proof.
  split; [run|].
  apply (success_leaves_response_untouched testServer getRoot None
           {| mock.rr := [] |} []).
  run.
Defined.

Lemma insert_failure_is_logged_witness :
  let store := {| failure := errors_New "table is full" |} in
  insertError (emitted downServer getRoot None store [])
  = Some (Some (errors_New "table is full"))
  ∧ EvLog "serveReqLog: got error writing to DB: table is full"
    ∈ emitted downServer getRoot None store [].
Proof.
  split; [run|].
  destruct (insert_failure_is_logged downServer getRoot None
              {| failure := errors_New "table is full" |} []
              (errors_New "table is full") ltac:(run))
    as (pre & args & post & ->).
  rewrite !elem_of_app. right. left. apply elem_of_cons. right.
  apply elem_of_cons. by left.
Defined.

Lemma insert_failure_on_broken_connection_witness :
  let store := {| failure := errors_New "table is full" |} in
  let gone := Some (errors_New "broken pipe") in
  insertError (emitted downServer getRoot gone store [])
  = Some (Some (errors_New "table is full"))
  ∧ http.body (w_resp (serve downServer getRoot gone store [])) = "".
Proof.
  split; [run|].
  apply (insert_failure_on_broken_connection downServer getRoot
           {| failure := errors_New "table is full" |} []
           (errors_New "table is full") (errors_New "broken pipe")).
  run.
Defined.

Lemma mock_keeps_one_record_per_request_witness :
  db testServer = mock.mockDB_Execer
  ∧ w_store (serve testServer postHello None {| mock.rr := [] |} [])
    = {| mock.rr := [capturedRecord testServer postHello []] |}.
Proof.
  split; [reflexivity|].
  apply (mock_keeps_one_record_per_request testServer postHello None [] []).
  reflexivity.
Defined.

Lemma mock_repeated_request_two_records_witness :
  db testServer = mock.mockDB_Execer
  ∧ ∃ rec1 rec2,
      mock.rr (w_store
                 (serve testServer getRoot None
                    (w_store (serve testServer getRoot None
                                {| mock.rr := [] |} []))
                    (w_trace (serve testServer getRoot None
                                {| mock.rr := [] |} []))))
      = [rec1; rec2]
      ∧ mock.url rec1 = mock.url rec2.
Proof.
  split; [reflexivity|].
  destruct (mock_repeated_request_two_records testServer getRoot None None
              [] [] eq_refl)
    as (rec1 & rec2 & Hrr & _ & _ & Hurl & _).
  exists rec1, rec2. split; [exact Hrr|exact Hurl].
Defined.

End HandlerRuns.
